(** * Wealth Advisor: the dashboard's portfolio arithmetic, verified

    A shallow embedding of [frontend/src/components/Dashboard.jsx] (the
    totals, the combined asset-allocation table, the overview ordering, the
    asset-class normalisation and the manual-entry form) together with the
    statement deduplicator that the specification describes.  The login
    form ([Login.jsx]), the file drop zone ([FileUpload.jsx]) and the
    application shell that renders them ([App.jsx]) are embedded as state
    transformers: a handler takes the state and what its request came to,
    and returns the state once it has run.

    Numbers.  A JavaScript number is an IEEE 754 binary64 value.  The
    development has two layers.  Where only the comparisons, the guards
    and the order of the results matter, a number is an exact rational
    [Q]: a numeric field that may be missing, [null] or [NaN] is an
    [option Q], with [None] for all three, which behave alike under
    [x || 0] and in a sort comparator, and a quotient whose divisor is zero
    has no value, so division is the partial operation [Js.div] and the
    code that divides lives in the option monad.  Where the digits of a
    result matter (the percentages of the allocation table and their sum,
    the amounts of a manual entry) the same code is embedded over [B64],
    binary64 arithmetic with its roundings, infinities and [NaN], in
    [Float64]; [B64] is compared with the kernel's binary64 numbers.

    Objects used as maps.  [allocationMap] is an association list kept in
    insertion order, which is the order [Object.values] enumerates string
    keys that are not array indices.  A lookup in a JavaScript object also
    finds what the object inherits from [Object.prototype]; asset-class
    keys are lower-cased, and the lower-case names among the inherited
    ones are [constructor] and [__proto__] ([Js.inherited]). *)

From Stdlib Require Import ZArith QArith Qround Qabs Qpower Lqa Lia.
From Stdlib Require Import List String Ascii Bool Permutation Sorted.
From Stdlib Require Floats.
From stdpp Require Import base option list gmap strings.
Import ListNotations.

Open Scope Q_scope.

(** ** The JavaScript operations the component relies on *)

Module Js.

(** [x < y] on numbers. *)
Definition ltb (x y : Q) : bool := negb (Qle_bool y x).

(** [x || 0] on a numeric field: [undefined], [null], [NaN] and [0] are all
    falsy, and all of them yield [0]. *)
Definition orZero (x : option Q) : Q :=
  match x with
  | Some q => q
  | None => 0
  end.

(** [s || d] on a string: the empty string is falsy. *)
Definition strOr (s d : string) : string :=
  match s with
  | EmptyString => d
  | _ => s
  end.

(** [s || d] on a string field that may be absent. *)
Definition fieldOr (s : option string) (d : string) : string :=
  match s with
  | Some t => strOr t d
  | None => d
  end.

(** [x - y] where either operand may be missing: the difference is [NaN]. *)
Definition sub (x y : option Q) : option Q :=
  match x, y with
  | Some a, Some b => Some (a - b)
  | _, _ => None
  end.

(** [x / y].  The quotient by zero is an infinity or [NaN] in JavaScript and
    has no counterpart in [Q]. *)
Definition div (x y : Q) : option Q :=
  if Qeq_bool y 0 then None else Some (x / y).

(** [Math.round]: the nearest integer, a tie going to the larger one. *)
Definition Math_round (x : Q) : Q := inject_Z (Qfloor (x + (1 # 2))).

(** [Array.prototype.sort(comparefn)].  ECMAScript requires the sort to be
    stable and, for a consistent comparator, its result to be ordered by the
    comparator, which determines the result; a stable insertion sort computes
    it.  A comparator result of [NaN] counts as [+0].  [x] is the element
    that stood first: it moves behind [y] only when the comparator is
    positive. *)
Fixpoint insert {A : Type} (comparefn : A -> A -> option Q) (x : A) (l : list A)
  : list A :=
  match l with
  | [] => [x]
  | y :: ys =>
      if ltb 0 (orZero (comparefn x y))
      then y :: insert comparefn x ys
      else x :: y :: ys
  end.

Definition sort {A : Type} (comparefn : A -> A -> option Q) (l : list A) : list A :=
  fold_right (insert comparefn) [] l.

(** [arr.slice(start, end)] for non-negative integer bounds. *)
Definition slice {A : Type} (l : list A) (start end_ : nat) : list A :=
  skipn start (firstn end_ l).

(** [arr.reduce((sum, x) => sum + f(x), init)]. *)
Definition reduce_sum {A : Type} (f : A -> Q) (l : list A) (init : Q) : Q :=
  fold_left (fun sum x => sum + f x) l init.

(** Case mapping on the ASCII letters; other bytes are left alone. *)
Definition lower (c : ascii) : ascii :=
  let n := nat_of_ascii c in
  if (65 <=? n)%nat && (n <=? 90)%nat then ascii_of_nat (n + 32) else c.

Definition upper (c : ascii) : ascii :=
  let n := nat_of_ascii c in
  if (97 <=? n)%nat && (n <=? 122)%nat then ascii_of_nat (n - 32) else c.

Fixpoint toLowerCase (s : string) : string :=
  match s with
  | EmptyString => EmptyString
  | String c r => String (lower c) (toLowerCase r)
  end.

(** [s.replace(a, b)] for one-character strings: the first [a] only. *)
Fixpoint replace (a b : ascii) (s : string) : string :=
  match s with
  | EmptyString => EmptyString
  | String c r => if Ascii.eqb c a then String b r else String c (replace a b r)
  end.

(** *** [parseFloat] on decimal literals *)

Definition is_space (c : ascii) : bool :=
  let n := nat_of_ascii c in
  (n =? 32)%nat || ((9 <=? n)%nat && (n <=? 13)%nat).

Fixpoint trimStart (s : string) : string :=
  match s with
  | String c r => if is_space c then trimStart r else s
  | EmptyString => s
  end.

Definition digit (c : ascii) : option Z :=
  let n := nat_of_ascii c in
  if (48 <=? n)%nat && (n <=? 57)%nat then Some (Z.of_nat (n - 48)) else None.

(** The longest run of digits at the front of [s]: its value on top of
    [acc], how many digits on top of [n], and what follows. *)
Fixpoint digits (s : string) (acc : Z) (n : nat) : Z * nat * string :=
  match s with
  | String c r =>
      match digit c with
      | Some d => digits r (acc * 10 + d) (S n)
      | None => (acc, n, s)
      end
  | EmptyString => (acc, n, s)
  end.

(** An optional sign: [1] or [-1], and what follows. *)
Definition sign (s : string) : Z * string :=
  match s with
  | String "-" r => ((-1)%Z, r)
  | String "+" r => (1%Z, r)
  | _ => (1%Z, s)
  end.

(** An exponent part [e±ddd], taken only when at least one digit follows. *)
Definition exponent (s : string) : Z :=
  match s with
  | String c r =>
      if Ascii.eqb (lower c) "e"
      then let '(sg, r') := sign r in
           let '(e, n, _) := digits r' 0%Z 0%nat in
           match n with O => 0%Z | S _ => (sg * e)%Z end
      else 0%Z
  | EmptyString => 0%Z
  end.

(** [parseFloat(s)]: leading white space is skipped, the longest prefix that
    is a decimal literal is read and the rest ignored; [None] is [NaN].
    The literal [Infinity] is not a rational and is read as [None]. *)
Definition parseFloat (s : string) : option Q :=
  let '(sg, s1) := sign (trimStart s) in
  let '(i, ni, s2) := digits s1 0%Z 0%nat in
  let '(f, nf, s3) :=
    match s2 with
    | String "." r => digits r 0%Z 0%nat
    | _ => (0%Z, 0%nat, s2)
    end in
  match (ni + nf)%nat with
  | O => None
  | S _ =>
      let mantissa := inject_Z i + inject_Z f / inject_Z (10 ^ Z.of_nat nf) in
      Some (Qred (inject_Z sg * mantissa * Qpower 10 (exponent s3)))
  end.

(** The lower-case names every object inherits from [Object.prototype]:
    a lookup [obj[key]] under one of them finds the inherited member even
    when [obj] has no such entry of its own. *)
Definition inherited (key : string) : bool :=
  String.eqb key "constructor" || String.eqb key "__proto__".

(** [s.endsWith(suffix)] *)
Definition endsWith (s suffix : string) : bool :=
  let n := String.length s in
  let k := String.length suffix in
  (k <=? n)%nat && String.eqb (String.substring (n - k) k s) suffix.

End Js.

(** ** The data the dashboard receives *)

(** A holding as it arrives in the portfolio JSON.  The component reads the
    numeric fields through [|| 0] or subtracts them directly, so each may be
    absent. *)
Record Holding := mkHolding {
  scheme_name : string;
  isin : option string;
  asset_class : string;
  amc : option string;
  folio : option string;
  source : option string;
  units : option Q;
  nav : option Q;
  current_value : option Q;
  invested_amount : option Q;
  absolute_return : option Q;
  percentage_return : option Q;
  valuation_date : option string
}.

(** [{...h, asset_class: c}] *)
Definition with_asset_class (h : Holding) (c : string) : Holding :=
  mkHolding (scheme_name h) (isin h) c (amc h) (folio h) (source h) (units h)
    (nav h) (current_value h) (invested_amount h) (absolute_return h)
    (percentage_return h) (valuation_date h).

(** The [summary] object of the portfolio JSON. *)
Record Summary := mkSummary {
  total_value : option Q;
  scheme_count : option Q;
  folio_count : option Q
}.

(** One element of the [asset_allocation] array of the portfolio JSON. *)
Record AllocationItem := mkAllocationItem {
  item_asset_class : string;
  item_value : option Q;
  item_scheme_count : option Q
}.

(** The [data] prop of [Dashboard], with the default [holdings = []]
    applied. *)
Record Data := mkData {
  summary : Summary;
  holdings : list Holding;
  asset_allocation : list AllocationItem
}.

(** ** [Dashboard] *)

Module Dashboard.

(** A value of [allocationMap]: [{asset_class, value, scheme_count}]. *)
Record Entry := mkEntry {
  entry_asset_class : string;
  value : Q;
  entry_scheme_count : Q
}.

(** A row of the combined table: [{...item, percentage}]. *)
Record Row := mkRow {
  item : Entry;
  percentage : Q
}.

(** [allocationMap], in insertion order. *)
Definition AllocationMap := list (string * Entry).

Fixpoint get (key : string) (m : AllocationMap) : option Entry :=
  match m with
  | [] => None
  | (k, e) :: r => if String.eqb k key then Some e else get key r
  end.

(** [allocationMap[key] = e]: an existing key keeps its place, a new one
    goes last. *)
Fixpoint set (key : string) (e : Entry) (m : AllocationMap) : AllocationMap :=
  match m with
  | [] => [(key, e)]
  | (k, v) :: r =>
      if String.eqb k key then (k, e) :: r else (k, v) :: set key e r
  end.

(** [Object.values(allocationMap)] *)
Definition values (m : AllocationMap) : list Entry := List.map snd m.

(** [holdings.filter(h => h.source === 'manual')] *)
Definition is_manual (h : Holding) : bool :=
  match source h with
  | Some s => String.eqb s "manual"
  | None => false
  end.

Definition manualHoldings (d : Data) : list Holding :=
  List.filter is_manual (holdings d).

Definition manualTotalValue (d : Data) : Q :=
  Js.reduce_sum (fun h => Js.orZero (current_value h)) (manualHoldings d) 0.

Definition totalPortfolioValue (d : Data) : Q :=
  Js.orZero (total_value (summary d)) + manualTotalValue d.

Definition totalSchemeCount (d : Data) : Q :=
  Js.orZero (scheme_count (summary d))
  + inject_Z (Z.of_nat (length (manualHoldings d))).

(** The body of [asset_allocation.forEach].  An assignment to ['__proto__']
    installs a prototype instead of adding an entry; what later lookups
    would inherit from that prototype is not followed. *)
Definition addBackendItem (m : AllocationMap) (it : AllocationItem) : AllocationMap :=
  let key := Js.toLowerCase (item_asset_class it) in
  if String.eqb key "__proto__" then m
  else set key (mkEntry (item_asset_class it) (Js.orZero (item_value it))
                  (Js.orZero (item_scheme_count it))) m.

(** [c.charAt(0).toUpperCase() + c.slice(1).replace('_', ' ')] *)
Definition labelOf (c : string) : string :=
  match c with
  | EmptyString => EmptyString
  | String a r => String (Js.upper a) (Js.replace "_" " " r)
  end.

(** The body of [manualHoldings.forEach].  Under an inherited name that is
    not an entry, [!allocationMap[key]] is false: no group is opened, the
    two updates land on the inherited object and the map stays as it is. *)
Definition addManualHolding (m : AllocationMap) (h : Holding) : AllocationMap :=
  let key := Js.toLowerCase (asset_class h) in
  match get key m with
  | None =>
      if Js.inherited key then m
      else set key (mkEntry (labelOf (asset_class h))
                      (0 + Js.orZero (current_value h)) (0 + 1)) m
  | Some e =>
      set key (mkEntry (entry_asset_class e)
                 (value e + Js.orZero (current_value h))
                 (entry_scheme_count e + 1)) m
  end.

Definition allocationMap (d : Data) : AllocationMap :=
  fold_left addManualHolding (manualHoldings d)
    (fold_left addBackendItem (asset_allocation d) []).

(** [total > 0 ? Math.round((item.value / total) * 10000) / 100 : 0] *)
Definition percentageOf (total : Q) (e : Entry) : option Q :=
  if Js.ltb 0 total
  then q ← Js.div (value e) total; Js.div (Js.Math_round (q * 10000)) 100
  else Some 0.

(** [(a, b) => b.value - a.value] *)
Definition byValueDesc (a b : Row) : option Q :=
  Some (value (item b) - value (item a)).

Definition totalOf (m : AllocationMap) : Q :=
  Js.reduce_sum value (values m) 0.

(** The [.map] stage: every entry with its percentage. *)
Definition withPercentages (m : AllocationMap) : option (list Row) :=
  mapM (fun e => p ← percentageOf (totalOf m) e; Some (mkRow e p)) (values m).

Definition getCombinedAssetAllocation (d : Data) : option (list Row) :=
  rows ← withPercentages (allocationMap d);
  Some (Js.sort byValueDesc
          (List.filter (fun r => Js.ltb 0 (value (item r))) rows)).

(** *** The two request handlers *)

(** What [await fetch(...)] comes to: the promise rejects, or a response
    arrives whose [ok] flag is set or not. *)
Inductive FetchOutcome :=
  | FetchRejected
  | Responded (ok : bool).


(** The [onRefresh] prop: absent, or a callback whose promise resolves
    ([true]) or rejects ([false]). *)
Definition OnRefresh := option bool.




End Dashboard.

(** ** [OverviewTab] *)

Module OverviewTab.




(** [(a, b) => (b.current_value || 0) - (a.current_value || 0)] *)
Definition byCurrentValueDesc (a b : Holding) : option Q :=
  Some (Js.orZero (current_value b) - Js.orZero (current_value a)).

(** [[...holdings].sort(...)] *)
Definition allHoldings (holdings : list Holding) : list Holding :=
  Js.sort byCurrentValueDesc holdings.

(** [allHoldings.slice(0, 5)], the rows of the Top 5 card. *)
Definition topHoldings (holdings : list Holding) : list Holding :=
  Js.slice (allHoldings holdings) 0 5.

(** [holding.amc || 'Manual'] *)
Definition amcLabel (h : Holding) : string := Js.fieldOr (amc h) "Manual".


(** [value => value.length > 15 ? value.substring(0, 15) + '...' : value],
    the tick formatter of the AMC chart. *)
Definition tickFormatter (value : string) : string :=
  if (15 <? String.length value)%nat
  then (String.substring 0 15 value ++ "...")%string
  else value.

End OverviewTab.

(** ** [HoldingsTab] *)

Module HoldingsTab.

Definition normalizeAssetClass (cls : string) : string :=
  if String.eqb cls "other" then "mutual_funds"%string else cls.

(** [holdings.map(h => ({...h, asset_class: normalizeAssetClass(h.asset_class)}))] *)
Definition allHoldings (holdings : list Holding) : list Holding :=
  List.map (fun h => with_asset_class h (normalizeAssetClass (asset_class h)))
    holdings.

(** The comparator of [filteredHoldings]; a missing operand makes the
    difference [NaN]. *)
Definition comparator (sortBy : string) (a b : Holding) : option Q :=
  if String.eqb sortBy "value" then Js.sub (current_value b) (current_value a)
  else if String.eqb sortBy "returns"
       then Js.sub (percentage_return b) (percentage_return a)
       else Some 0.

Definition matches (filterClass : string) (h : Holding) : bool :=
  String.eqb filterClass "all" || String.eqb (asset_class h) filterClass.

Definition filteredHoldings (filterClass sortBy : string) (holdings : list Holding)
  : list Holding :=
  Js.sort (comparator sortBy)
    (List.filter (matches filterClass) (allHoldings holdings)).

Definition getCounts (key : string) (holdings : list Holding) : nat :=
  if String.eqb key "all" then length (allHoldings holdings)
  else length (List.filter (fun h => String.eqb (asset_class h) key)
                 (allHoldings holdings)).

(** [holding.amc || 'Manual'] *)
Definition amcLabel (h : Holding) : string := Js.fieldOr (amc h) "Manual".


(** The keys of [assetClassTabs] after ['all']. *)
Definition assetClassKeys : list string :=
  [ "equity"; "mutual_funds"; "us_equity"; "crypto"; "cash"; "debt"; "gold" ]%string.

(** The keys of [assetClassTabs]. *)
Definition assetClassTabs : list string := "all"%string :: assetClassKeys.

End HoldingsTab.

(** ** [ManualEntryModal] *)

Module ManualEntryModal.

(** The [formData] state: every control holds a string. *)
Record FormData := mkFormData {
  form_scheme_name : string;
  form_asset_class : string;
  form_units : string;
  form_purchase_nav : string;
  form_current_nav : string;
  form_amc : string
}.

(** [invested > 0 ? (absoluteReturn / invested) * 100 : 0] *)
Definition pctReturnOf (absoluteReturn invested : Q) : option Q :=
  if Js.ltb 0 invested
  then q ← Js.div absoluteReturn invested; Some (q * 100)
  else Some 0.

(** [handleSubmit].  The state is the [isSubmitting] flag; the result is the
    new flag and the object handed to [onAdd], if any.  [today] stands for
    [new Date().toISOString().split('T')[0]]. *)
Definition handleSubmit (isSubmitting : bool) (formData : FormData) (today : string)
  : option (bool * option Holding) :=
  if isSubmitting then Some (isSubmitting, None)
  else
    let units := Js.orZero (Js.parseFloat (form_units formData)) in
    let purchaseNav := Js.orZero (Js.parseFloat (form_purchase_nav formData)) in
    let currentNav := Js.orZero (Js.parseFloat (form_current_nav formData)) in
    let invested := units * purchaseNav in
    let currentValue := units * currentNav in
    let absoluteReturn := currentValue - invested in
    pctReturn ← pctReturnOf absoluteReturn invested;
    Some (true,
          Some (mkHolding (form_scheme_name formData) (Some ""%string)
                  (form_asset_class formData)
                  (Some (Js.strOr (form_amc formData) "Manual"))
                  (Some ""%string) None (Some units) (Some currentNav)
                  (Some currentValue) (Some invested) (Some absoluteReturn)
                  (Some pctReturn) (Some today))).

End ManualEntryModal.

(** ** [Login] *)

Module Login.

(** The [step] state: ['phone'] or ['otp']. *)
Inductive Step := phone_step | otp_step.

Record State := mkState {
  step : Step;
  phone : string;
  otp : string;
  isLoading : bool;
  error : string
}.

(** The state of [useState] at mount. *)
Definition initial : State := mkState phone_step "" "" false "".

Definition isDigit (c : ascii) : bool :=
  match Js.digit c with
  | Some _ => true
  | None => false
  end.

(** [value.replace(/\D/g, '')]: every character that is not a decimal digit
    is dropped. *)
Fixpoint digitsOnly (value : string) : string :=
  match value with
  | EmptyString => EmptyString
  | String c r => if isDigit c then String c (digitsOnly r) else digitsOnly r
  end.

(** What the send-otp request comes to: [fetch] or [response.json()]
    rejects, or a body arrives with its [success] flag and [message]. *)
Inductive SendOutcome :=
  | SendRejected
  | SendResult (success : bool) (message : option string).

(** What the verify-otp request comes to; with an [ok] response the body is
    read, and [None] stands for [response.json()] rejecting. *)
Inductive VerifyOutcome :=
  | VerifyRejected
  | VerifyResponded (ok : bool) (body : option (string * string)).

Definition handleSendOTP (o : SendOutcome) (st : State) : State :=
  match o with
  | SendRejected =>
      mkState (step st) (phone st) (otp st) false "Failed to connect to server"
  | SendResult true _ => mkState otp_step (phone st) (otp st) false ""
  | SendResult false message =>
      mkState (step st) (phone st) (otp st) false
        (Js.fieldOr message "Failed to send OTP")
  end.

(** The new state and the arguments [onLogin] is called with, if it is. *)
Definition handleVerifyOTP (o : VerifyOutcome) (st : State)
  : State * option (string * string) :=
  match o with
  | VerifyRejected =>
      (mkState (step st) (phone st) (otp st) false "Failed to verify OTP", None)
  | VerifyResponded true (Some credentials) =>
      (mkState (step st) (phone st) (otp st) false "", Some credentials)
  | VerifyResponded true None =>
      (mkState (step st) (phone st) (otp st) false "Failed to verify OTP", None)
  | VerifyResponded false _ =>
      (mkState (step st) (phone st) (otp st) false "Invalid OTP", None)
  end.

(** Everything the user or the network can do to the form. *)
Inductive Action :=
  | TypePhone (value : string)
  | TypeOtp (value : string)
  | SubmitPhone (o : SendOutcome)
  | SubmitOtp (o : VerifyOutcome)
  | ChangeNumber
  | BackToPhone.

Definition act (a : Action) (st : State) : State :=
  match a with
  | TypePhone value => mkState (step st) value (otp st) (isLoading st) (error st)
  | TypeOtp value =>
      mkState (step st) (phone st) (digitsOnly value) (isLoading st) (error st)
  | SubmitPhone o => handleSendOTP o st
  | SubmitOtp o => fst (handleVerifyOTP o st)
  | ChangeNumber => mkState phone_step (phone st) (otp st) (isLoading st) (error st)
  | BackToPhone => mkState phone_step (phone st) "" (isLoading st) ""
  end.

(** The state after a sequence of actions, the first of the list first. *)
Definition run (actions : list Action) : State :=
  fold_left (fun st a => act a st) actions initial.

(** [disabled={isLoading || phone.length !== 10}] *)
Definition sendDisabled (st : State) : bool :=
  isLoading st || negb (String.length (phone st) =? 10)%nat.

(** [disabled={isLoading || otp.length < 4}] *)
Definition verifyDisabled (st : State) : bool :=
  isLoading st || (String.length (otp st) <? 4)%nat.

(** The condition under which the verify button is drawn greyed out:
    [isLoading || otp.length !== 4]. *)
Definition verifyLooksDisabled (st : State) : bool :=
  isLoading st || negb (String.length (otp st) =? 4)%nat.

End Login.

(** ** [FileUpload] *)

Module FileUpload.

(** A [File]; the component reads its name through [?.]. *)
Record File := mkFile {
  name : option string;
  size : N
}.

Record State := mkState {
  file : option File;
  isDragging : bool
}.

(** [droppedFile?.name?.toLowerCase().endsWith('.pdf')] *)
Definition isPdf (droppedFile : option File) : bool :=
  match droppedFile with
  | Some f =>
      match name f with
      | Some n => Js.endsWith (Js.toLowerCase n) ".pdf"
      | None => false
      end
  | None => false
  end.

(** [handleDrop]; [droppedFile] is [e.dataTransfer.files[0]]. *)
Definition handleDrop (droppedFile : option File) (st : State) : State :=
  if isPdf droppedFile then mkState droppedFile false
  else mkState (file st) false.

(** [handleFileSelect]; [selectedFile] is [e.target.files[0]]. *)
Definition handleFileSelect (selectedFile : option File) (st : State) : State :=
  match selectedFile with
  | Some f => mkState (Some f) (isDragging st)
  | None => st
  end.

Definition handleDragOver (st : State) : State := mkState (file st) true.

Definition handleDragLeave (st : State) : State := mkState (file st) false.

(** [handleSubmit]: the file [onUpload] is called with, if it is. *)
Definition handleSubmit (st : State) : option File := file st.

End FileUpload.

(** ** [App] *)

Module App.

(** The portfolio object of a server answer, as far as [App] and
    [Dashboard] read it; [holdings] and [segments] may be missing. *)
Record PortfolioData := mkPortfolioData {
  data_summary : Summary;
  data_holdings : option (list Holding);
  data_asset_allocation : list AllocationItem;
  data_segments : option (list string)
}.

Record State := mkState {
  isAuthenticated : bool;
  user : option string;
  portfolioData : option PortfolioData;
  segments : list string;
  isLoading : bool;
  isLoadingPortfolio : bool;
  error : option string;
  showUpload : bool;
  showAddMenu : bool;
  showManualEntry : bool
}.

(** The two [localStorage] items. *)
Record Storage := mkStorage {
  auth_token : option string;
  user_phone : option string
}.

(** [Object.keys(data.segments || {})] *)
Definition segmentKeys (d : PortfolioData) : list string :=
  match data_segments d with
  | Some keys => keys
  | None => []
  end.

Definition handleLogout (st : State) : State * Storage :=
  (mkState false None None [] (isLoading st) (isLoadingPortfolio st) (error st)
     false (showAddMenu st) (showManualEntry st),
   mkStorage None None).

(** What the upload request comes to: [fetch] or [response.json()] rejects,
    or a body arrives with [success], [data] and [error]. *)
Inductive UploadOutcome :=
  | UploadRejected
  | UploadResult (success : bool) (data : option PortfolioData) (err : option string).

Definition connectError : string :=
  "Failed to connect to server. Make sure the backend is running.".

(** [handleUpload].  With [success] set and no [data], [setPortfolioData]
    has run by the time [result.data.segments] throws. *)
Definition handleUpload (o : UploadOutcome) (st : State) : State :=
  match o with
  | UploadRejected =>
      mkState (isAuthenticated st) (user st) (portfolioData st) (segments st)
        false (isLoadingPortfolio st) (Some connectError) (showUpload st)
        (showAddMenu st) (showManualEntry st)
  | UploadResult true (Some d) _ =>
      mkState (isAuthenticated st) (user st) (Some d) (segmentKeys d)
        false (isLoadingPortfolio st) None false
        (showAddMenu st) (showManualEntry st)
  | UploadResult true None _ =>
      mkState (isAuthenticated st) (user st) None (segments st)
        false (isLoadingPortfolio st) (Some connectError) (showUpload st)
        (showAddMenu st) (showManualEntry st)
  | UploadResult false _ err =>
      mkState (isAuthenticated st) (user st) (portfolioData st) (segments st)
        false (isLoadingPortfolio st) (Some (Js.fieldOr err "Failed to parse file"))
        (showUpload st) (showAddMenu st) (showManualEntry st)
  end.

Definition handleShowUpload (st : State) : State :=
  mkState (isAuthenticated st) (user st) (portfolioData st) (segments st)
    (isLoading st) (isLoadingPortfolio st) None true
    (showAddMenu st) (showManualEntry st).

(** [handleResetPortfolio]; [confirmed] is the answer to [confirm(...)]. *)
Definition handleResetPortfolio (confirmed : bool) (response : Dashboard.FetchOutcome)
    (st : State) : State :=
  if confirmed
  then match response with
       | Dashboard.Responded true =>
           mkState (isAuthenticated st) (user st) None [] false
             (isLoadingPortfolio st) None false
             (showAddMenu st) (showManualEntry st)
       | _ =>
           mkState (isAuthenticated st) (user st) (portfolioData st) (segments st)
             false (isLoadingPortfolio st) (error st) (showUpload st)
             (showAddMenu st) (showManualEntry st)
       end
  else st.

(** [portfolioData && portfolioData.holdings && portfolioData.holdings.length > 0] *)
Definition hasPortfolio (st : State) : bool :=
  match portfolioData st with
  | Some d =>
      match data_holdings d with
      | Some (_ :: _) => true
      | _ => false
      end
  | None => false
  end.

(** The [data] prop as [Dashboard] destructures it, [holdings = []] being
    the default. *)
Definition dashboardData (d : PortfolioData) : Data :=
  mkData (data_summary d)
    (match data_holdings d with Some hs => hs | None => [] end)
    (data_asset_allocation d).

(** [App] renders [Dashboard] with [data], [showManualEntry],
    [setShowManualEntry] and [segments]; no [onRefresh] is passed. *)
Definition onRefresh : Dashboard.OnRefresh := None.

(** What is on the screen. *)
Inductive View :=
  | LoginView
  | LoadingPortfolioView
  | AnalyzingView
  | DashboardView (data : Data) (refresh : Dashboard.OnRefresh)
  | UploadView (hasPortfolio : bool) (err : option string).

Definition render (st : State) : View :=
  if negb (isAuthenticated st) then LoginView
  else if isLoadingPortfolio st then LoadingPortfolioView
  else if isLoading st then AnalyzingView
  else if hasPortfolio st && negb (showUpload st)
       then match portfolioData st with
            | Some d => DashboardView (dashboardData d) onRefresh
            | None => UploadView false (error st)
            end
       else UploadView (hasPortfolio st) (error st).




End App.

(** ** The server side, as the specification describes it *)

Module Spec.

(** Modelled from the spec: the Analytics Engine's [summary] (section 4.4),
    computed on the server, whose code is not part of the front end:
    [total_value] is the sum of [current_value], [scheme_count] the number
    of holdings, [folio_count] the number of distinct non-empty folios. *)
Definition folios (hs : list Holding) : gset string :=
  list_to_set (omap (fun h => match folio h with
                              | Some EmptyString | None => None
                              | Some f => Some f
                              end) hs).

Definition sumCurrentValue (hs : list Holding) : Q :=
  fold_right (fun h acc => Js.orZero (current_value h) + acc) 0 hs.

Definition summaryOf (hs : list Holding) : Summary :=
  mkSummary (Some (sumCurrentValue hs))
    (Some (inject_Z (Z.of_nat (length hs))))
    (Some (inject_Z (Z.of_nat (size (folios hs))))).

(** Modelled from the spec: the allocation percentage of section 4.4,
    [group value / total value × 100] rounded to 2 decimal places with
    ties going to the even neighbour. *)
Definition roundHalfEven (x : Q) : Z :=
  let f := Qfloor x in
  let r := x - inject_Z f in
  if Js.ltb r (1 # 2) then f
  else if Js.ltb (1 # 2) r then (f + 1)%Z
       else if Z.even f then f else (f + 1)%Z.

Definition round2HalfEven (x : Q) : Q := inject_Z (roundHalfEven (x * 100)) / 100.

Definition percentage (groupValue totalValue : Q) : Q :=
  round2HalfEven (groupValue / totalValue * 100).

(** *** Source Deduplicator (sections 3 and 4.2) *)

Inductive StatementFormat := nsdl_cas | vested_us.

Record StatementSource := mkStatementSource {
  source_id : string;
  format : StatementFormat;
  uploaded_at : N;
  source_holdings : list Holding
}.

Record Portfolio := mkPortfolio {
  sources : gmap string StatementSource;
  manual_holdings : gmap string Holding
}.

Inductive Outcome :=
  | Accepted (p : Portfolio)
  | DuplicateUpload (p : Portfolio)
  | UnparseableStatement.

Section Deduplicator.

(** The content fingerprint, a deterministic function of the file's bytes. *)
Variable fingerprint : list Byte.byte -> string.

(** The Statement Normalizer; [None] is its "unparseable statement"
    condition. *)
Variable normalize : list Byte.byte -> option (StatementFormat * list Holding).

(** The Portfolio Merger, which derives [holdings] from the sources and the
    manual entries. *)
Variable merger : gmap string StatementSource -> gmap string Holding -> list Holding.

(** Modelled from the spec: the Source Deduplicator of section 4.2, which
    belongs to the server: a statement whose fingerprint is already a key
    of [sources] is a no-op returning the portfolio as it is, without
    normalizing; any other is normalized and stored under its
    fingerprint. *)
Definition ingest (now : N) (raw : list Byte.byte) (p : Portfolio) : Outcome :=
  let id := fingerprint raw in
  match sources p !! id with
  | Some _ => DuplicateUpload p
  | None =>
      match normalize raw with
      | None => UnparseableStatement
      | Some (fmt, hs) =>
          Accepted (mkPortfolio
                      (<[id := mkStatementSource id fmt now hs]> (sources p))
                      (manual_holdings p))
      end
  end.

(** The portfolio that is persisted once the request is over; an error
    leaves it untouched (section 7). *)
Definition upload (now : N) (raw : list Byte.byte) (p : Portfolio) : Portfolio :=
  match ingest now raw p with
  | Accepted q | DuplicateUpload q => q
  | UnparseableStatement => p
  end.

(** [holdings] is derived, never stored. *)
Definition holdingsOf (p : Portfolio) : list Holding :=
  merger (sources p) (manual_holdings p).

End Deduplicator.

End Spec.

(** ** Binary64 arithmetic *)

(** A JavaScript number is an IEEE 754 binary64 value and every operation
    on it rounds.  [B64] is that arithmetic: a number is a rational that
    binary64 holds, an infinity or [NaN], and each operation takes the
    exact result to the nearest binary64 value, a tie going to the one with
    an even significand.  The two zeros are not told apart: they differ
    only under a division by zero, and every division in the components
    is by a constant or behind a guard [> 0]. *)

Module B64.

Inductive Num :=
  | Fin (q : Q)
  | PosInf
  | NegInf
  | NaN.

(** [2^e] *)
Definition pow2 (e : Z) : Q := Qpower 2 e.

(** [floor (log2 q)] for a positive [q]. *)
Definition ilog2 (q : Q) : Z :=
  let l := (Z.log2 (Qnum q) - Z.log2 (Zpos (Qden q)))%Z in
  if Qle_bool (pow2 l) q then l else (l - 1)%Z.

(** The nearest integer, a tie going to the even one. *)
Definition nearestEven (x : Q) : Z :=
  let f := Qfloor x in
  match Qcompare (x - inject_Z f) (1 # 2) with
  | Lt => f
  | Gt => (f + 1)%Z
  | Eq => if Z.even f then f else (f + 1)%Z
  end.

(** The exponent of the last place of a positive [q]: 53 significant bits,
    and no finer than [2^-1074]. *)
Definition ulpExponent (q : Q) : Z := Z.max (ilog2 q - 52) (-1074).

(** A positive [q] rounded to 53 significant bits. *)
Definition roundPos (q : Q) : Q :=
  let e := ulpExponent q in
  Qred (inject_Z (nearestEven (q / pow2 e)) * pow2 e).

(** [Number.MAX_VALUE] *)
Definition maxFinite : Q := inject_Z (2 ^ 53 - 1) * pow2 971.

(** The binary64 value of a real number: what a literal is read as and
    what an exact result is rounded to. *)
Definition round (q : Q) : Num :=
  match Qcompare q 0 with
  | Eq => Fin 0
  | Gt => let r := roundPos q in
          if Qle_bool r maxFinite then Fin r else PosInf
  | Lt => let r := roundPos (- q) in
          if Qle_bool r maxFinite then Fin (- r) else NegInf
  end.

(** [-x] *)
Definition opp (a : Num) : Num :=
  match a with
  | Fin x => Fin (- x)
  | PosInf => NegInf
  | NegInf => PosInf
  | NaN => NaN
  end.

(** The infinity of the sign of [c], the comparison of a number with 0; a
    zero counts as positive. *)
Definition infinity (c : comparison) : Num :=
  match c with
  | Lt => NegInf
  | _ => PosInf
  end.

(** [x + y] *)
Definition add (a b : Num) : Num :=
  match a, b with
  | NaN, _ | _, NaN => NaN
  | PosInf, NegInf | NegInf, PosInf => NaN
  | PosInf, _ | _, PosInf => PosInf
  | NegInf, _ | _, NegInf => NegInf
  | Fin x, Fin y => round (x + y)
  end.

(** [x - y] *)
Definition sub (a b : Num) : Num := add a (opp b).

(** [x * y] *)
Definition mul (a b : Num) : Num :=
  match a, b with
  | NaN, _ | _, NaN => NaN
  | Fin x, Fin y => round (x * y)
  | Fin x, inf | inf, Fin x =>
      match Qcompare x 0 with
      | Eq => NaN
      | Gt => inf
      | Lt => opp inf
      end
  | PosInf, PosInf | NegInf, NegInf => PosInf
  | PosInf, NegInf | NegInf, PosInf => NegInf
  end.

(** [x / y] *)
Definition div (a b : Num) : Num :=
  match a, b with
  | NaN, _ | _, NaN => NaN
  | Fin x, Fin y =>
      match Qcompare y 0 with
      | Eq => match Qcompare x 0 with
              | Eq => NaN
              | c => infinity c
              end
      | _ => round (x / y)
      end
  | Fin _, _ => Fin 0
  | inf, Fin y =>
      match Qcompare y 0 with
      | Lt => opp inf
      | _ => inf
      end
  | _, _ => NaN
  end.

(** [x < y] *)
Definition ltb (a b : Num) : bool :=
  match a, b with
  | NaN, _ | _, NaN => false
  | Fin x, Fin y => Js.ltb x y
  | NegInf, NegInf | PosInf, _ => false
  | NegInf, _ => true
  | Fin _, PosInf => true
  | Fin _, NegInf => false
  end.

(** [x || 0]: [undefined], [null], [NaN] and [0] yield [0]. *)
Definition orZero (x : option Num) : Num :=
  match x with
  | Some (Fin q) => if Qeq_bool q 0 then Fin 0 else Fin q
  | Some NaN | None => Fin 0
  | Some inf => inf
  end.

(** [Math.round]: the nearest integer, a tie going to the larger one.  On a
    binary64 value the result is again one, so nothing is rounded. *)
Definition Math_round (a : Num) : Num :=
  match a with
  | Fin x => Fin (inject_Z (Qfloor (x + (1 # 2))))
  | other => other
  end.

(** A number as the result of a sort comparator: only its sign matters,
    and [NaN] counts as [+0]. *)
Definition comparatorResult (a : Num) : option Q :=
  match a with
  | Fin x => Some x
  | PosInf => Some 1
  | NegInf => Some (-1)
  | NaN => None
  end.

(** A numeric field of the portfolio JSON: [JSON.parse] reads the decimal
    literal [q] as the nearest binary64 value.  (For a literal of more than
    20 significant digits ECMAScript also admits the value of its first 20
    digits; engines round the literal itself.) *)
Definition ofJson (x : option Q) : option Num := option_map round x.

(** [parseFloat]: the literal read by [Js.parseFloat], rounded; the
    literal [Infinity], with or without a sign; [NaN] for anything else. *)
Definition parseFloat (s : string) : Num :=
  let '(sg, rest) := Js.sign (Js.trimStart s) in
  if String.prefix "Infinity" rest
  then (if (sg <? 0)%Z then NegInf else PosInf)
  else match Js.parseFloat s with
       | Some q => round q
       | None => NaN
       end.

(** Half the gap between neighbouring values, relative to their size:
    [2^-53]. *)
Definition unitRoundoff : Q := pow2 (-53).

(** Half the least positive value: [2^-1075]. *)
Definition halfLeast : Q := pow2 (-1075).

(** Every binary64 value is a whole multiple of the least positive one,
    [2^-1074]. *)
Definition onGrid (q : Q) : Prop :=
  exists z : Z, q == inject_Z z * pow2 (-1074).

(** The same number: equal rationals, the same infinity, or [NaN] twice. *)
Definition eqb (a b : Num) : bool :=
  match a, b with
  | Fin x, Fin y => Qeq_bool x y
  | PosInf, PosInf | NegInf, NegInf | NaN, NaN => true
  | _, _ => false
  end.

(** The number a finite value stands for; an infinity or [NaN] stands for
    none and reads as 0. *)
Definition toQ (a : Num) : Q :=
  match a with
  | Fin q => q
  | _ => 0
  end.

End B64.

(** The kernel's own binary64 numbers, read into [B64]; the two
    arithmetics are compared on them below. *)
Definition ofFloat (f : PrimFloat.float) : B64.Num :=
  match FloatOps.Prim2SF f with
  | SpecFloat.S754_zero _ => B64.Fin 0
  | SpecFloat.S754_infinity false => B64.PosInf
  | SpecFloat.S754_infinity true => B64.NegInf
  | SpecFloat.S754_nan => B64.NaN
  | SpecFloat.S754_finite s m e =>
      B64.Fin (Qred ((if s then -1 else 1) * inject_Z (Zpos m) * B64.pow2 e))
  end.

(** ** The arithmetic of [Dashboard.jsx] in binary64 *)

Module Float64.

(** A value of [allocationMap]. *)
Record Entry := mkEntry {
  entry_asset_class : string;
  value : B64.Num;
  entry_scheme_count : B64.Num
}.

Record Row := mkRow {
  item : Entry;
  percentage : B64.Num
}.

Definition AllocationMap := list (string * Entry).

Fixpoint get (key : string) (m : AllocationMap) : option Entry :=
  match m with
  | [] => None
  | (k, e) :: r => if String.eqb k key then Some e else get key r
  end.

Fixpoint set (key : string) (e : Entry) (m : AllocationMap) : AllocationMap :=
  match m with
  | [] => [(key, e)]
  | (k, v) :: r =>
      if String.eqb k key then (k, e) :: r else (k, v) :: set key e r
  end.

Definition values (m : AllocationMap) : list Entry := List.map snd m.

(** [x || 0] on a numeric field of the JSON. *)
Definition field (x : option Q) : B64.Num := B64.orZero (B64.ofJson x).

(** The body of [asset_allocation.forEach].  Assigning to ['__proto__']
    installs a prototype instead of adding an entry; what later lookups
    would inherit from that prototype is not followed. *)
Definition addBackendItem (m : AllocationMap) (it : AllocationItem) : AllocationMap :=
  let key := Js.toLowerCase (item_asset_class it) in
  if String.eqb key "__proto__" then m
  else set key (mkEntry (item_asset_class it) (field (item_value it))
                  (field (item_scheme_count it))) m.

(** The body of [manualHoldings.forEach].  Under an inherited name that is
    not an entry, no group is opened and the two updates land on the
    inherited object: the map stays as it is. *)
Definition addManualHolding (m : AllocationMap) (h : Holding) : AllocationMap :=
  let key := Js.toLowerCase (asset_class h) in
  match get key m with
  | Some e =>
      set key (mkEntry (entry_asset_class e)
                 (B64.add (value e) (field (current_value h)))
                 (B64.add (entry_scheme_count e) (B64.Fin 1))) m
  | None =>
      if Js.inherited key then m
      else set key (mkEntry (Dashboard.labelOf (asset_class h))
                      (B64.add (B64.Fin 0) (field (current_value h)))
                      (B64.add (B64.Fin 0) (B64.Fin 1))) m
  end.

Definition allocationMap (d : Data) : AllocationMap :=
  fold_left addManualHolding (Dashboard.manualHoldings d)
    (fold_left addBackendItem (asset_allocation d) []).

(** [Object.values(allocationMap).reduce((sum, item) => sum + item.value, 0)] *)
Definition totalOf (m : AllocationMap) : B64.Num :=
  fold_left (fun sum e => B64.add sum (value e)) (values m) (B64.Fin 0).

(** [(item.value / total) * 10000] *)
Definition scaledShare (total : B64.Num) (e : Entry) : B64.Num :=
  B64.mul (B64.div (value e) total) (B64.Fin 10000).

(** [total > 0 ? Math.round((item.value / total) * 10000) / 100 : 0] *)
Definition percentageOf (total : B64.Num) (e : Entry) : B64.Num :=
  if B64.ltb (B64.Fin 0) total
  then B64.div (B64.Math_round (scaledShare total e)) (B64.Fin 100)
  else B64.Fin 0.

(** [(a, b) => b.value - a.value] *)
Definition byValueDesc (a b : Row) : option Q :=
  B64.comparatorResult (B64.sub (value (item b)) (value (item a))).

Definition withPercentages (m : AllocationMap) : list Row :=
  List.map (fun e => mkRow e (percentageOf (totalOf m) e)) (values m).

Definition getCombinedAssetAllocation (d : Data) : list Row :=
  Js.sort byValueDesc
    (List.filter (fun r => B64.ltb (B64.Fin 0) (value (item r)))
       (withPercentages (allocationMap d))).

(** The groups of a portfolio all have a value that is a number and not
    negative. *)
Definition NonNegativeGroups (d : Data) : Prop :=
  Forall (fun e => exists q, value e = B64.Fin q /\ 0 <= q)
    (values (allocationMap d)).


(** *** [ManualEntryModal.handleSubmit] *)

(** The object handed to [onAdd]. *)
Record Sent := mkSent {
  scheme_name : string;
  asset_class : string;
  units : B64.Num;
  nav : B64.Num;
  current_value : B64.Num;
  invested_amount : B64.Num;
  absolute_return : B64.Num;
  percentage_return : B64.Num;
  amc : string;
  isin : string;
  folio : string;
  valuation_date : string
}.

(** [parseFloat(text) || 0] *)
Definition number (text : string) : B64.Num :=
  B64.orZero (Some (B64.parseFloat text)).

(** [invested > 0 ? (absoluteReturn / invested) * 100 : 0] *)
Definition pctReturnOf (absoluteReturn invested : B64.Num) : B64.Num :=
  if B64.ltb (B64.Fin 0) invested
  then B64.mul (B64.div absoluteReturn invested) (B64.Fin 100)
  else B64.Fin 0.

Definition handleSubmit (isSubmitting : bool) (formData : ManualEntryModal.FormData)
    (today : string) : bool * option Sent :=
  if isSubmitting then (isSubmitting, None)
  else
    let units := number (ManualEntryModal.form_units formData) in
    let purchaseNav := number (ManualEntryModal.form_purchase_nav formData) in
    let currentNav := number (ManualEntryModal.form_current_nav formData) in
    let invested := B64.mul units purchaseNav in
    let currentValue := B64.mul units currentNav in
    let absoluteReturn := B64.sub currentValue invested in
    let pctReturn := pctReturnOf absoluteReturn invested in
    (true,
     Some (mkSent (ManualEntryModal.form_scheme_name formData)
             (ManualEntryModal.form_asset_class formData)
             units currentNav currentValue invested absoluteReturn pctReturn
             (Js.strOr (ManualEntryModal.form_amc formData) "Manual")
             "" "" today)).

End Float64.

(** ** Vocabulary of the statements *)

(** The sum of a list of numbers. *)
Definition sumQ (l : list Q) : Q := fold_right Qplus 0 l.

(** The holdings in non-increasing order of [current_value || 0]. *)
Definition ByCurrentValueDesc : list Holding -> Prop :=
  StronglySorted
    (fun a b => Js.orZero (current_value b) <= Js.orZero (current_value a)).




(** ** Sample portfolios *)

Module Samples.

(** A holding reported by a statement. *)
Definition statementHolding (name cls broker : string) (u price cost : Q) : Holding :=
  mkHolding name (Some ""%string) cls (Some broker) (Some ""%string)
    (Some "statement"%string) (Some u) (Some price) (Some (u * price))
    (Some (u * cost)) (Some (u * price - u * cost)) None None.

(** Half a bitcoin entered by hand: bought at 30000, now at 60000. *)
Definition bitcoin : Holding :=
  mkHolding "Bitcoin" (Some ""%string) "crypto" (Some "Manual"%string)
    (Some ""%string) (Some "manual"%string) (Some (1 # 2)) (Some 60000)
    (Some 30000) (Some 15000) (Some 15000) (Some 100)
    (Some "2026-01-15"%string).

(** The portfolio the server answers with once that entry is its only
    holding; the summary is the one section 4.4 prescribes. *)
Definition afterBitcoin : Data :=
  mkData (Spec.summaryOf [bitcoin]) [bitcoin]
    [mkAllocationItem "Crypto" (Some 30000) (Some 1)].

(** Two statement holdings worth 1 and 31: the smaller group's share is
    3.125 percent, exactly halfway between 3.12 and 3.13. *)
Definition halfway : Data :=
  let hs := [ statementHolding "Gold Bond" "gold" "RBI" 1 1 1;
              statementHolding "HDFC Bank" "equity" "Zerodha" 31 1 1 ] in
  mkData (Spec.summaryOf hs) hs
    [ mkAllocationItem "Gold" (Some 1) (Some 1);
      mkAllocationItem "Equity" (Some 31) (Some 1) ].




(** Six holdings, two of them of equal value. *)
Definition sixHoldings : Data :=
  let hs := [ statementHolding "A" "equity" "Z" 1 5 5;
              statementHolding "B" "other" "Z" 1 9 9;
              statementHolding "C" "equity" "Z" 1 5 5;
              statementHolding "D" "hybrid" "Z" 1 7 7;
              statementHolding "E" "debt" "Z" 1 2 2;
              statementHolding "F" "mutual_funds" "Z" 1 11 11 ] in
  mkData (Spec.summaryOf hs) hs [].

(** The manual-entry form filled in for the bitcoin position, broker left
    empty. *)
Definition bitcoinForm : ManualEntryModal.FormData :=
  ManualEntryModal.mkFormData "Bitcoin" "crypto" "0.5" "30000" "60000" "".


(** The same position, with the platform named. *)
Definition coinbaseForm : ManualEntryModal.FormData :=
  ManualEntryModal.mkFormData "Bitcoin" "crypto" "0.5" "30000" "60000" "Coinbase".

(** A stand-in fingerprint and normalizer for exercising the deduplicator:
    the fingerprint is the file's length in unary, and every file holds the
    one HDFC position. *)
Definition lengthFingerprint (raw : list Byte.byte) : string :=
  string_of_list_ascii (List.map (fun _ => "x"%char) raw).

Definition oneRowNormalizer (raw : list Byte.byte)
  : option (Spec.StatementFormat * list Holding) :=
  Some (Spec.nsdl_cas,
        [statementHolding "HDFC Bank" "equity" "Zerodha" 50 (162075 # 100) (145050 # 100)]).

Definition concatMerger (srcs : gmap string Spec.StatementSource)
    (manual : gmap string Holding) : list Holding :=
  List.concat (List.map (fun kv => Spec.source_holdings (snd kv)) (map_to_list srcs))
  ++ List.map snd (map_to_list manual).

Definition statementFile : list Byte.byte := [Byte.x25; Byte.x50; Byte.x44; Byte.x46].

Definition emptyPortfolio : Spec.Portfolio := Spec.mkPortfolio ∅ ∅.

(** A logged-in user looking at the dashboard of the bitcoin portfolio. *)
Definition viewingPortfolio : App.State :=
  App.mkState true (Some "7899021114"%string)
    (Some (App.mkPortfolioData (summary afterBitcoin) (Some (holdings afterBitcoin))
             (asset_allocation afterBitcoin) None))
    [] false false None false false false.

(** A server answer that reports success and holds no holding. *)
Definition emptyAnswer : App.PortfolioData :=
  App.mkPortfolioData (mkSummary (Some 0) (Some 0) (Some 0)) (Some []) [] None.


(** Gold worth 57 in a portfolio of 800: a share of 7.125 percent. *)
Definition fiftySevenOf800 : Data :=
  mkData (mkSummary (Some 800) (Some 2) (Some 0)) []
    [ mkAllocationItem "Equity" (Some 743) (Some 1);
      mkAllocationItem "Gold" (Some 57) (Some 1) ].






(** An entry made by hand under a class named like a member every object
    inherits. *)
Definition constructorHolding : Holding :=
  mkHolding "Builder Shares" (Some ""%string) "constructor" (Some "Manual"%string)
    (Some ""%string) (Some "manual"%string) (Some 1) (Some 40)
    (Some 40) (Some 40) (Some 0) (Some 0) (Some "2026-01-15"%string).

End Samples.

(** ** Facts about the JavaScript operations *)

Section JsFacts.

Lemma ltb_lt (x y : Q) : Js.ltb x y = true <-> x < y.
Proof.
  unfold Js.ltb. rewrite negb_true_iff.
  destruct (Qle_bool y x) eqn:E.
  - apply Qle_bool_iff in E. split; [discriminate | intros H; lra].
  - split; [intros _ | reflexivity].
    destruct (Qlt_le_dec x y) as [H | H]; [exact H |].
    apply Qle_bool_iff in H. congruence.
Qed.

Lemma ltb_ge (x y : Q) : Js.ltb x y = false <-> y <= x.
Proof.
  destruct (Js.ltb x y) eqn:E.
  - apply ltb_lt in E. split; [discriminate | intros H; lra].
  - split; [intros _ | reflexivity].
    destruct (Qlt_le_dec x y) as [H | H]; [| exact H].
    apply ltb_lt in H. congruence.
Qed.

Lemma div_defined (x y : Q) : ~ y == 0 -> Js.div x y = Some (x / y).
Proof.
  intros H. unfold Js.div. destruct (Qeq_bool y 0) eqn:E; [| reflexivity].
  apply Qeq_bool_iff in E. contradiction.
Qed.

Lemma reduce_sum_init {A : Type} (f : A -> Q) (l : list A) (init : Q) :
  Js.reduce_sum f l init == init + sumQ (List.map f l).
Proof.
  unfold Js.reduce_sum. revert init.
  induction l as [| a l IH]; intros init; simpl.
  - lra.
  - rewrite IH. lra.
Qed.

(** [Math.round] returns the integer within one half, the upper one on a
    tie. *)
Lemma Math_round_bounds (x : Q) :
  x - (1 # 2) < Js.Math_round x <= x + (1 # 2).
Proof.
  unfold Js.Math_round.
  pose proof (Qfloor_le (x + (1 # 2))) as Hle.
  pose proof (Qlt_floor (x + (1 # 2))) as Hlt.
  rewrite inject_Z_plus in Hlt. change (inject_Z 1) with 1 in Hlt.
  split; lra.
Qed.

Variable A : Type.
Variable comparefn : A -> A -> option Q.

Lemma insert_Permutation (x : A) (l : list A) :
  Permutation (x :: l) (Js.insert comparefn x l).
Proof.
  induction l as [| y ys IH]; simpl.
  - reflexivity.
  - destruct (Js.ltb 0 (Js.orZero (comparefn x y))).
    + rewrite perm_swap. now apply perm_skip.
    + reflexivity.
Qed.

Lemma sort_Permutation (l : list A) : Permutation l (Js.sort comparefn l).
Proof.
  induction l as [| x l IH]; simpl.
  - reflexivity.
  - rewrite <- insert_Permutation. now apply perm_skip.
Qed.

(** A comparator of the shape [(a, b) => key(b) - key(a)] sorts in
    non-increasing order of the key. *)
Variable key : A -> Q.
Hypothesis comparefn_key : forall a b, comparefn a b = Some (key b - key a).

Local Abbreviation desc := (fun a b : A => key b <= key a).

Lemma insert_sorted (x : A) (l : list A) :
  StronglySorted desc l -> StronglySorted desc (Js.insert comparefn x l).
Proof.
  induction 1 as [| y ys Hs IH Hy]; simpl.
  - repeat constructor.
  - rewrite comparefn_key. simpl.
    destruct (Js.ltb 0 (key y - key x)) eqn:E.
    + apply ltb_lt in E. constructor; [exact IH |].
      apply (Permutation_Forall (insert_Permutation x ys)).
      constructor; [lra | exact Hy].
    + apply ltb_ge in E. constructor; [now constructor |].
      constructor; [lra |].
      eapply List.Forall_impl; [| exact Hy].
      intros z Hz. simpl in Hz. lra.
Qed.

Lemma sort_sorted (l : list A) : StronglySorted desc (Js.sort comparefn l).
Proof.
  induction l as [| x l IH]; simpl.
  - constructor.
  - now apply insert_sorted.
Qed.

End JsFacts.

(** ** Facts about the combined allocation table *)

Section AllocationFacts.

Import Dashboard.








End AllocationFacts.

(** ** The model at work *)

Example parseFloat_reads_decimal_literals :
  Js.parseFloat "0.5" = Some (1 # 2)
  /\ Js.parseFloat " 30000" = Some 30000
  /\ Js.parseFloat "-.25" = Some (-1 # 4)
  /\ Js.parseFloat "5." = Some 5
  /\ Js.parseFloat "25e-1" = Some (5 # 2)
  /\ Js.parseFloat "1.5e2 units" = Some 150
  /\ Js.parseFloat "2e" = Some 2
  /\ Js.parseFloat "" = None
  /\ Js.parseFloat "." = None
  /\ Js.parseFloat "abc" = None.
Proof. repeat split. Qed.

Example Math_round_ties_go_up :
  Js.Math_round (5 # 2) = 3 /\ Js.Math_round (7 # 2) = 4
  /\ Js.Math_round (-5 # 2) = -2 /\ Js.Math_round (249 # 100) = 2.
Proof. repeat split. Qed.

Example roundHalfEven_ties_go_to_even :
  Spec.roundHalfEven (5 # 2) = 2%Z /\ Spec.roundHalfEven (7 # 2) = 4%Z
  /\ Spec.roundHalfEven (-5 # 2) = (-2)%Z /\ Spec.roundHalfEven (249 # 100) = 2%Z.
Proof. repeat split. Qed.

(** Equal keys keep the order they came in. *)
Example sort_is_stable :
  List.map scheme_name
    (OverviewTab.allHoldings
       [ Samples.statementHolding "A" "equity" "Z" 1 5 5;
         Samples.statementHolding "B" "equity" "Z" 1 9 9;
         Samples.statementHolding "C" "equity" "Z" 1 5 5;
         Samples.statementHolding "D" "equity" "Z" 1 7 7 ])
  = ["B"; "D"; "A"; "C"]%string.
Proof. reflexivity. Qed.

Example labelOf_us_equity : Dashboard.labelOf "us_equity" = "Us equity"%string.
Proof. reflexivity. Qed.

(** A manual holding joins the group the server already reports under the
    same lower-cased key. *)
Example allocation_after_bitcoin :
  Dashboard.getCombinedAssetAllocation Samples.afterBitcoin
  = Some [Dashboard.mkRow (Dashboard.mkEntry "Crypto" (30000 + 30000) (1 + 1))
            ((10000 # 1) / 100)].
Proof. reflexivity. Qed.

(** Away from a tie [Math.round] and rounding half to even agree. *)
Lemma Math_round_off_ties (x : Q) :
  ~ x - inject_Z (Qfloor x) == 1 # 2 ->
  Js.Math_round x = inject_Z (Spec.roundHalfEven x).
Proof.
  intros Hne. unfold Js.Math_round, Spec.roundHalfEven. f_equal.
  pose proof (Qfloor_le x) as Hf1. pose proof (Qlt_floor x) as Hf2.
  pose proof (Qfloor_le (x + (1 # 2))) as Hk1.
  pose proof (Qlt_floor (x + (1 # 2))) as Hk2.
  set (f := Qfloor x) in *. set (k := Qfloor (x + (1 # 2))) in *.
  rewrite inject_Z_plus in Hf2, Hk2. change (inject_Z 1) with 1 in Hf2, Hk2.
  assert (Hint : forall a b : Z, inject_Z a < inject_Z b + 1 -> (a <= b)%Z).
  { intros a b H. apply Z.lt_succ_r. rewrite Zlt_Qlt, <- Z.add_1_r, inject_Z_plus.
    exact H. }
  destruct (Js.ltb (x - inject_Z f) (1 # 2)) eqn:E1.
  - apply ltb_lt in E1. apply Z.le_antisymm; apply Hint; lra.
  - apply ltb_ge in E1.
    destruct (Js.ltb (1 # 2) (x - inject_Z f)) eqn:E2.
    + apply ltb_lt in E2.
      apply Z.le_antisymm; apply Hint; rewrite ?inject_Z_plus;
        change (inject_Z 1) with 1; lra.
    + apply ltb_ge in E2. exfalso. apply Hne. lra.
Qed.

(** ** Ordering of the two tables *)


(** C9.  The overview orders the holdings by [current_value] (a missing one
    counting as 0), largest first; the Top 5 card shows the first five of
    that order; and the ordering is a permutation of the holdings it was
    given. *)
Theorem overview_holdings_ordering (holdings : list Holding) :
  ByCurrentValueDesc (OverviewTab.allHoldings holdings)
  /\ OverviewTab.topHoldings holdings = firstn 5 (OverviewTab.allHoldings holdings)
  /\ Permutation holdings (OverviewTab.allHoldings holdings).
Proof.
  repeat split.
  - apply (sort_sorted Holding OverviewTab.byCurrentValueDesc
             (fun h => Js.orZero (current_value h))).
    reflexivity.
  - apply sort_Permutation.
Qed.

(** ** Facts about sums and the allocation map *)

Section SumFacts.

Import Dashboard.









End SumFacts.

(** ** Percentages *)




(** ** Facts about binary64 arithmetic *)

Section B64Facts.

Import B64.

Lemma pow2_pos (e : Z) : 0 < pow2 e.
Proof. now apply Qpower_0_lt. Qed.

Lemma pow2_plus (a b : Z) : pow2 (a + b) == pow2 a * pow2 b.
Proof. now apply Qpower_plus. Qed.

Lemma pow2_Z (e : Z) : (0 <= e)%Z -> pow2 e == inject_Z (2 ^ e).
Proof. intros H. symmetry. now apply Zpower_Qpower. Qed.

Lemma pow2_half (e : Z) : pow2 (e - 1) == pow2 e * (1 # 2).
Proof. unfold Z.sub. rewrite pow2_plus. reflexivity. Qed.

(** [ilog2 q] is the exponent of the power of two at or below [q] ... *)
Lemma ilog2_le (q : Q) : 0 < q -> pow2 (ilog2 q) <= q.
Proof.
  intros Hq. unfold ilog2.
  destruct (Qle_bool _ q) eqn:E; [now apply Qle_bool_iff in E |].
  clear E. destruct q as [n d].
  assert (Hn : (0 < n)%Z) by (unfold Qlt in Hq; simpl in Hq; lia).
  simpl Qnum. simpl Qden.
  pose proof (Z.log2_spec n Hn) as [Ha _].
  pose proof (Z.log2_spec (Zpos d) eq_refl) as [_ Hb].
  pose proof (Z.log2_nonneg n) as Ha0.
  pose proof (Z.log2_nonneg (Zpos d)) as Hb0.
  set (a := Z.log2 n) in *. set (b := Z.log2 (Zpos d)) in *.
  replace (a - b - 1)%Z with (a - Z.succ b)%Z by lia.
  unfold pow2. rewrite Qpower_minus by discriminate.
  fold (pow2 a). fold (pow2 (Z.succ b)).
  rewrite !pow2_Z by lia.
  rewrite (Qmake_Qdiv n d).
  assert (HB : 0 < inject_Z (2 ^ Z.succ b)).
  { rewrite <- pow2_Z by lia. apply pow2_pos. }
  assert (HD : 0 < inject_Z (Zpos d)) by reflexivity.
  apply Qle_shift_div_r; [exact HB |].
  unfold Qdiv. rewrite <- Qmult_assoc, (Qmult_comm (/ _)), Qmult_assoc.
  apply Qle_shift_div_l; [exact HD |].
  rewrite <- !inject_Z_mult, <- Zle_Qle.
  apply Z.mul_le_mono_nonneg; lia.
Qed.

(** The nearest integer is within one half. *)
Lemma nearestEven_error (x : Q) : Qabs (inject_Z (nearestEven x) - x) <= 1 # 2.
Proof.
  pose proof (Qfloor_le x) as Hl. pose proof (Qlt_floor x) as Hu.
  rewrite inject_Z_plus in Hu. change (inject_Z 1) with 1 in Hu.
  apply Qabs_Qle_condition. unfold nearestEven.
  destruct (Qcompare _ _) eqn:C.
  - apply Qeq_alt in C. destruct (Z.even _);
      rewrite ?inject_Z_plus; change (inject_Z 1) with 1; split; lra.
  - apply Qlt_alt in C. split; lra.
  - apply Qgt_alt in C. rewrite inject_Z_plus. change (inject_Z 1) with 1.
    split; lra.
Qed.

Lemma nearestEven_nonneg (x : Q) : 0 <= x -> (0 <= nearestEven x)%Z.
Proof.
  intros H. apply Qfloor_resp_le in H. change (Qfloor 0) with 0%Z in H.
  unfold nearestEven. destruct (Qcompare _ _); [destruct (Z.even _) | |]; lia.
Qed.

Lemma nearestEven_exact (x : Q) (z : Z) : x == inject_Z z -> nearestEven x = z.
Proof.
  intros H. unfold nearestEven.
  assert (Hf : Qfloor x = z) by (rewrite H; apply Qfloor_Z).
  rewrite Hf.
  assert (C : Qcompare (x - inject_Z z) (1 # 2) = Lt).
  { apply (proj1 (Qlt_alt _ _)). lra. }
  now rewrite C.
Qed.

Lemma roundPos_eq (q : Q) :
  roundPos q == inject_Z (nearestEven (q / pow2 (ulpExponent q))) * pow2 (ulpExponent q).
Proof. unfold roundPos. apply Qred_correct. Qed.

Lemma roundPos_nonneg (q : Q) : 0 <= q -> 0 <= roundPos q.
Proof.
  intros H. rewrite roundPos_eq.
  pose proof (pow2_pos (ulpExponent q)) as HP.
  apply Qmult_le_0_compat; [| lra].
  change 0 with (inject_Z 0). rewrite <- Zle_Qle. apply nearestEven_nonneg.
  apply Qle_shift_div_l; [exact HP | lra].
Qed.

(** A rounding is off by at most half a unit in the last place. *)
Lemma roundPos_error (q : Q) :
  Qabs (roundPos q - q) <= pow2 (ulpExponent q) * (1 # 2).
Proof.
  rewrite roundPos_eq.
  pose proof (pow2_pos (ulpExponent q)) as HP.
  set (P := pow2 (ulpExponent q)) in *.
  pose proof (nearestEven_error (q / P)) as Hk.
  set (k := inject_Z (nearestEven (q / P))) in *.
  assert (E : k * P - q == (k - q / P) * P) by (field; intros Hz; lra).
  rewrite E, Qabs_Qmult, (Qabs_pos P) by lra.
  rewrite (Qmult_comm P). apply Qmult_le_compat_r; [exact Hk | lra].
Qed.

End B64Facts.

Section B64RoundFacts.

Import B64.

Lemma unitRoundoff_value : unitRoundoff == 1 # 9007199254740992.
Proof. reflexivity. Qed.

Lemma halfLeast_pos : 0 < halfLeast.
Proof. apply pow2_pos. Qed.

Lemma halfLeast_small : halfLeast <= 1 # 1000000000000000000000000000000.
Proof. apply Qle_bool_iff. vm_compute. reflexivity. Qed.

Lemma maxFinite_large : 1000000000000 <= maxFinite.
Proof. apply Qle_bool_iff. vm_compute. reflexivity. Qed.

(** Half a unit in the last place of [q] is at most one part in [2^53] of
    [q], or half the least positive number. *)
Lemma ulp_bound (q : Q) :
  0 < q -> pow2 (ulpExponent q) * (1 # 2) <= unitRoundoff * q + halfLeast.
Proof.
  intros Hq. pose proof halfLeast_pos as Hh. unfold ulpExponent.
  destruct (Z.max_spec (ilog2 q - 52) (-1074)) as [[_ ->] | [_ ->]].
  - rewrite <- (pow2_half (-1074)). change (pow2 (-1074 - 1)) with halfLeast.
    rewrite unitRoundoff_value. lra.
  - pose proof (ilog2_le q Hq) as Hl.
    replace (ilog2 q - 52)%Z with (ilog2 q + -52)%Z by lia.
    rewrite pow2_plus. change (pow2 (-52)) with (1 # 4503599627370496).
    rewrite unitRoundoff_value. lra.
Qed.

Lemma roundPos_close (q : Q) :
  0 < q -> Qabs (roundPos q - q) <= unitRoundoff * q + halfLeast.
Proof.
  intros Hq. eapply Qle_trans; [apply roundPos_error | now apply ulp_bound].
Qed.

Lemma roundPos_onGrid (q : Q) : onGrid (roundPos q).
Proof.
  exists (nearestEven (q / pow2 (ulpExponent q)) * 2 ^ (ulpExponent q + 1074))%Z.
  rewrite roundPos_eq, inject_Z_mult.
  assert (H : (0 <= ulpExponent q + 1074)%Z) by (unfold ulpExponent; lia).
  rewrite <- (pow2_Z _ H), <- Qmult_assoc, <- pow2_plus.
  now replace (ulpExponent q + 1074 + -1074)%Z with (ulpExponent q) by lia.
Qed.

(** A whole multiple of the least positive number is rounded with a
    relative error only: where the last place is [2^-1074], it is not
    rounded at all. *)
Lemma roundPos_close_onGrid (q : Q) :
  0 < q -> onGrid q -> Qabs (roundPos q - q) <= unitRoundoff * q.
Proof.
  intros Hq [z Hz].
  destruct (Z.max_spec (ilog2 q - 52) (-1074)) as [[_ E] | [_ E]];
    fold (ulpExponent q) in E.
  - assert (Hr : roundPos q == q).
    { rewrite roundPos_eq, E.
      rewrite (nearestEven_exact _ z); [now symmetry |].
      rewrite Hz. field. pose proof (pow2_pos (-1074)). intros H0. lra. }
    rewrite Hr. assert (E0 : (q - q) == 0) by ring. rewrite E0.
    rewrite unitRoundoff_value. change (Qabs 0) with 0. lra.
  - eapply Qle_trans; [apply roundPos_error |]. rewrite E.
    pose proof (ilog2_le q Hq) as Hl.
    replace (ilog2 q - 52)%Z with (ilog2 q + -52)%Z by lia.
    rewrite pow2_plus. change (pow2 (-52)) with (1 # 4503599627370496).
    rewrite unitRoundoff_value. lra.
Qed.

(** Rounding a number that is not negative. *)
Lemma round_nonneg (q r : Q) :
  0 <= q -> round q = Fin r ->
  0 <= r /\ onGrid r
  /\ Qabs (r - q) <= unitRoundoff * q + halfLeast
  /\ (onGrid q -> Qabs (r - q) <= unitRoundoff * q).
Proof.
  intros Hq. unfold round. destruct (Qcompare q 0) eqn:C.
  - apply Qeq_alt in C. intros [= <-].
    split; [lra |]. split; [exists 0%Z; reflexivity |].
    pose proof halfLeast_pos.
    assert (E0 : (0 - q) == 0) by lra. rewrite E0. rewrite unitRoundoff_value.
    change (Qabs 0) with 0. split; [| intros _]; lra.
  - apply Qlt_alt in C. lra.
  - apply Qgt_alt in C. destruct (Qle_bool _ _); [| discriminate].
    intros [= <-]. split; [apply roundPos_nonneg; lra |].
    split; [apply roundPos_onGrid |].
    split; [now apply roundPos_close | now apply roundPos_close_onGrid].
Qed.


(** Up to [1e11] nothing overflows. *)
Lemma round_finite (q : Q) :
  0 <= q -> q <= 100000000000 -> exists r, round q = Fin r.
Proof.
  intros Hq Hb. unfold round. destruct (Qcompare q 0) eqn:C.
  - now exists 0.
  - apply Qlt_alt in C. lra.
  - apply Qgt_alt in C.
    pose proof (roundPos_close q C) as H. apply Qabs_Qle_condition in H.
    pose proof halfLeast_small. pose proof maxFinite_large.
    rewrite unitRoundoff_value in H.
    assert (Hle : roundPos q <= maxFinite) by lra.
    apply Qle_bool_iff in Hle. rewrite Hle. now eexists.
Qed.

End B64RoundFacts.

Section B64FormatFacts.

Import B64.

(** ... and the next power is above [q]. *)
Lemma ilog2_lt (q : Q) : 0 < q -> q < pow2 (ilog2 q + 1).
Proof.
  intros Hq. unfold ilog2.
  destruct (Qle_bool _ q) eqn:E.
  - clear E. destruct q as [n d].
    assert (Hn : (0 < n)%Z) by (unfold Qlt in Hq; simpl in Hq; lia).
    simpl Qnum. simpl Qden.
    pose proof (Z.log2_spec n Hn) as [_ Ha].
    pose proof (Z.log2_spec (Zpos d) eq_refl) as [Hb _].
    pose proof (Z.log2_nonneg n) as Ha0.
    pose proof (Z.log2_nonneg (Zpos d)) as Hb0.
    set (a := Z.log2 n) in *. set (b := Z.log2 (Zpos d)) in *.
    replace (a - b + 1)%Z with (Z.succ a - b)%Z by lia.
    unfold pow2. rewrite Qpower_minus by discriminate.
    fold (pow2 (Z.succ a)). fold (pow2 b).
    rewrite !pow2_Z by lia.
    rewrite (Qmake_Qdiv n d).
    assert (HB : 0 < inject_Z (2 ^ b)).
    { rewrite <- pow2_Z by lia. apply pow2_pos. }
    assert (HD : 0 < inject_Z (Zpos d)) by reflexivity.
    apply Qlt_shift_div_l; [exact HB |].
    unfold Qdiv. rewrite <- Qmult_assoc, (Qmult_comm (/ _)), Qmult_assoc.
    apply Qlt_shift_div_r; [exact HD |].
    rewrite <- !inject_Z_mult, <- Zlt_Qlt.
    apply Z.le_lt_trans with (n * Zpos d)%Z.
    + apply Z.mul_le_mono_nonneg_l; lia.
    + apply Z.mul_lt_mono_pos_r; lia.
  - replace (ilog2 q - 1 + 1)%Z with (ilog2 q) by lia.
    assert (H : ~ pow2 (Z.log2 (Qnum q) - Z.log2 (Z.pos (Qden q))) <= q).
    { intros H. apply Qle_bool_iff in H. congruence. }
    apply Qnot_le_lt in H.
    now replace (Z.log2 (Qnum q) - Z.log2 (Z.pos (Qden q)) - 1 + 1)%Z
      with (Z.log2 (Qnum q) - Z.log2 (Z.pos (Qden q)))%Z by lia.
Qed.

(** The result of a rounding is a binary64 number: a significand of at
    most 53 bits at an exponent of at least [-1074]; and it is within half
    a unit in the last place of what was rounded. *)
Lemma roundPos_is_binary64 (q : Q) :
  0 < q ->
  exists (m e : Z),
    roundPos q == inject_Z m * pow2 e
    /\ (0 <= m <= 2 ^ 53)%Z /\ (-1074 <= e)%Z
    /\ Qabs (roundPos q - q) <= pow2 e * (1 # 2).
Proof.
  intros Hq.
  exists (nearestEven (q / pow2 (ulpExponent q))), (ulpExponent q).
  split; [apply roundPos_eq |].
  pose proof (pow2_pos (ulpExponent q)) as HP.
  assert (Hx0 : 0 <= q / pow2 (ulpExponent q)) by (apply Qle_shift_div_l; lra).
  assert (Hx : q / pow2 (ulpExponent q) < inject_Z (2 ^ 53)).
  { apply Qlt_shift_div_r; [exact HP |].
    apply Qlt_le_trans with (pow2 (ilog2 q + 1)); [now apply ilog2_lt |].
    rewrite <- (pow2_Z 53) by lia. rewrite <- pow2_plus.
    apply Qpower_le_compat_l; [unfold ulpExponent; lia | discriminate]. }
  split; [| split; [unfold ulpExponent; lia | apply roundPos_error]].
  split; [now apply nearestEven_nonneg |].
  pose proof (Qfloor_le (q / pow2 (ulpExponent q))) as Hf.
  assert (Hfz : (Qfloor (q / pow2 (ulpExponent q)) < 2 ^ 53)%Z).
  { rewrite Zlt_Qlt. lra. }
  unfold nearestEven. destruct (Qcompare _ _); [destruct (Z.even _) | |]; lia.
Qed.

End B64FormatFacts.

(** ** [B64] against the kernel's binary64 numbers *)

Section Binary64Agreement.

Import PrimFloat.
#[local] Set Warnings "-inexact-float".

(** Literals are read alike: in the normal range, among the subnormal
    numbers, below the least of them, beyond the largest number, and on a
    tie between two neighbours. *)
Example round_agrees :
  List.map B64.round
    [ 1 # 10; 3 # 10; 2 # 100; 313 # 100; 9688 # 100; 1 # 3; - (1 # 3);
      inject_Z (10 ^ 308); 1 / inject_Z (10 ^ 320); 1 / inject_Z (10 ^ 400);
      inject_Z (10 ^ 309); - inject_Z (10 ^ 309);
      inject_Z (2 ^ 53 + 1); inject_Z (2 ^ 53 + 3) ]
  = List.map ofFloat
      [ 0.1; 0.3; 0.02; 3.13; 96.88; 0x1.5555555555555p-2; -0x1.5555555555555p-2;
        1e308; 1e-320; 0; infinity; neg_infinity;
        9007199254740992; 9007199254740996 ]%float.
Proof. vm_compute. reflexivity. Qed.

(** The operations behind the numbers quoted in this file. *)
Example products_and_quotients_agree :
  B64.mul (ofFloat 0.1) (ofFloat 0.2) = ofFloat (0.1 * 0.2)
  /\ B64.mul (ofFloat 3) (ofFloat 0.3) = ofFloat (3 * 0.3)
  /\ B64.mul (B64.div (ofFloat 57) (ofFloat 800)) (ofFloat 10000)
     = ofFloat (57 / 800 * 10000)
  /\ B64.div (ofFloat 713) (ofFloat 100) = ofFloat (713 / 100)
  /\ B64.add (ofFloat 59.38) (ofFloat 40.63) = ofFloat (59.38 + 40.63)
  /\ B64.add (ofFloat 1e308) (ofFloat 1e308) = ofFloat (1e308 + 1e308)
  /\ B64.mul (ofFloat 1e-200) (ofFloat 1e-120) = ofFloat (1e-200 * 1e-120).
Proof. vm_compute. repeat split. Qed.

(** Every sum, difference, product, quotient and comparison of two of
    these numbers comes out the same in both arithmetics. *)
Example arithmetic_agrees_on_a_grid :
  let grid :=
    [ 0; 1; -1; 3; 0.1; 0.2; 0.3; 57; 800; 10000; 9007199254740993;
      1e308; 1e-200; 5e-324; 3e-310; 0x1.fffffffffffffp-1;
      infinity; neg_infinity; nan ]%float in
  forallb
    (fun a =>
       forallb
         (fun b =>
            B64.eqb (B64.add (ofFloat a) (ofFloat b)) (ofFloat (a + b))
            && B64.eqb (B64.sub (ofFloat a) (ofFloat b)) (ofFloat (a - b))
            && B64.eqb (B64.mul (ofFloat a) (ofFloat b)) (ofFloat (a * b))
            && B64.eqb (B64.div (ofFloat a) (ofFloat b)) (ofFloat (a / b))
            && Bool.eqb (B64.ltb (ofFloat a) (ofFloat b)) (a <? b)%float)
         grid)
    grid
  = true.
Proof. vm_compute. reflexivity. Qed.

End Binary64Agreement.

Section B64OperationFacts.

Import B64.

Lemma round_onGrid (q r : Q) : round q = Fin r -> onGrid r.
Proof.
  unfold round. destruct (Qcompare q 0).
  - intros [= <-]. now exists 0%Z.
  - destruct (Qle_bool _ _); [| discriminate]. intros [= <-].
    destruct (roundPos_onGrid (- q)) as [z Hz]. exists (- z)%Z.
    rewrite Hz, inject_Z_opp. ring.
  - destruct (Qle_bool _ _); [| discriminate]. intros [= <-].
    apply roundPos_onGrid.
Qed.

Lemma onGrid_plus (x y : Q) : onGrid x -> onGrid y -> onGrid (x + y).
Proof.
  intros [a Ha] [b Hb]. exists (a + b)%Z. rewrite Ha, Hb, inject_Z_plus. ring.
Qed.

(** A sum that is a number is the rounded sum of two numbers. *)
Lemma add_Fin (a b : Num) (t : Q) :
  add a b = Fin t -> exists x y, a = Fin x /\ b = Fin y /\ round (x + y) = Fin t.
Proof. destruct a, b; simpl; try discriminate. eauto. Qed.

Lemma orZero_onGrid (x : option Num) (q : Q) :
  (forall r, x = Some (Fin r) -> onGrid r) -> orZero x = Fin q -> onGrid q.
Proof.
  intros Hx. destruct x as [[r | | |] |]; simpl; try discriminate.
  - destruct (Qeq_bool r 0).
    + intros [= <-]. now exists 0%Z.
    + intros [= <-]. now apply Hx.
  - intros [= <-]. now exists 0%Z.
  - intros [= <-]. now exists 0%Z.
Qed.

End B64OperationFacts.

Section Float64SumFacts.

Import B64 Float64.

Lemma sumQ_app (l l' : list Q) : sumQ (l ++ l') == sumQ l + sumQ l'.
Proof. induction l as [| x l IH]; simpl; [| rewrite IH]; ring. Qed.

(** The total the code computes, against the exact sum of the values: each
    of the additions is off by at most one part in [2^53]. *)
Lemma total_close (es : list Entry) :
  forall t,
    Forall (fun e => exists q, value e = Fin q /\ 0 <= q) es ->
    Forall (fun e => forall q, value e = Fin q -> onGrid q) es ->
    (Z.of_nat (length es) <= 2 ^ 32)%Z ->
    fold_left (fun sum e => add sum (value e)) es (Fin 0) = Fin t ->
    0 <= t /\ onGrid t
    /\ 0 <= sumQ (List.map (fun e => toQ (value e)) es)
    /\ Qabs (t - sumQ (List.map (fun e => toQ (value e)) es))
       <= inject_Z (Z.of_nat (length es)) * (2 * unitRoundoff)
          * sumQ (List.map (fun e => toQ (value e)) es).
Proof.
  induction es as [| e es IH] using rev_ind; intros t Hnn Hgrid Hlen Hfold.
  - simpl in Hfold. injection Hfold as <-.
    cbn [List.map sumQ fold_right length].
    change (inject_Z (Z.of_nat 0)) with 0. change (Qabs (0 - 0)) with 0.
    split; [lra |]. split; [now exists 0%Z |]. split; lra.
  - apply Forall_app in Hnn as [Hnn He]. apply Forall_app in Hgrid as [Hgrid Hge].
    inversion He as [| ? ? (q & Hq & Hq0) _]; subst.
    inversion Hge as [| ? ? Hgq _]; subst. specialize (Hgq q Hq).
    rewrite length_app in Hlen |- *. simpl length in Hlen |- *.
    rewrite fold_left_app in Hfold. simpl in Hfold.
    apply add_Fin in Hfold as (x & y & Hx & Hy & Hround).
    rewrite Hq in Hy. injection Hy as <-.
    destruct (IH x Hnn Hgrid ltac:(lia) Hx) as (Hx0 & Hgx & HS0 & Hclose).
    destruct (round_nonneg (x + q) t ltac:(lra) Hround) as (Ht0 & Hgt & _ & Hr).
    specialize (Hr (onGrid_plus _ _ Hgx Hgq)).
    rewrite map_app, sumQ_app. simpl List.map. simpl sumQ. rewrite Hq. simpl toQ.
    set (S' := sumQ (List.map (fun e => toQ (value e)) es)) in *.
    rewrite Nat2Z.inj_add, inject_Z_plus. change (inject_Z (Z.of_nat 1)) with 1.
    set (N' := inject_Z (Z.of_nat (length es))) in *.
    assert (HN0 : 0 <= N').
    { unfold N'. change 0 with (inject_Z 0). rewrite <- Zle_Qle. lia. }
    assert (HNb : N' <= 4294967296).
    { unfold N'. change 4294967296 with (inject_Z (2 ^ 32)).
      rewrite <- Zle_Qle. lia. }
    assert (F1 : N' * S' <= 4294967296 * S') by now apply Qmult_le_compat_r.
    assert (F2 : 0 <= N' * q) by now apply Qmult_le_0_compat.
    assert (F3 : 0 <= N' * S') by now apply Qmult_le_0_compat.
    rewrite unitRoundoff_value in *.
    apply Qabs_Qle_condition in Hclose, Hr.
    split; [exact Ht0 |]. split; [exact Hgt |]. split; [lra |].
    apply Qabs_Qle_condition. split; lra.
Qed.

End Float64SumFacts.

(** ** The binary64 model at work *)

Example parseFloat_in_binary64 :
  List.map B64.parseFloat [ "0.5"; " 12.5e1 units"; "0.1"; "-Infinity"; "1e400"; "n/a" ]%string
  = [ B64.Fin (1 # 2); B64.Fin 125; B64.round (1 # 10); B64.NegInf; B64.PosInf; B64.NaN ].
Proof. vm_compute. reflexivity. Qed.

Example allocation_after_bitcoin_in_binary64 :
  Float64.getCombinedAssetAllocation Samples.afterBitcoin
  = [ Float64.mkRow (Float64.mkEntry "Crypto" (B64.Fin 60000) (B64.Fin 2)) (B64.Fin 100) ].
Proof. vm_compute. reflexivity. Qed.

(** A manual entry whose class is an inherited name opens no group: it is
    in neither table. *)
Example inherited_name_opens_no_group :
  Float64.getCombinedAssetAllocation
    (mkData (mkSummary (Some 40) (Some 1) (Some 0)) [Samples.constructorHolding] [])
  = []
  /\ Dashboard.getCombinedAssetAllocation
       (mkData (mkSummary (Some 40) (Some 1) (Some 0)) [Samples.constructorHolding] [])
     = Some [].
Proof. split; reflexivity. Qed.

(** ** Facts about the allocation table in binary64 *)

Section Float64PercentageFacts.

Import B64 Float64.

Lemma ltb_Fin (x y : Q) : ltb (Fin x) (Fin y) = true <-> x < y.
Proof. apply ltb_lt. Qed.

Lemma div_Fin (x y : Q) : 0 < y -> div (Fin x) (Fin y) = round (x / y).
Proof.
  intros Hy. simpl. apply (proj1 (Qgt_alt _ _)) in Hy. now rewrite Hy.
Qed.

(** What the percentage formula does to a group whose value is at most
    twice the total: nothing overflows, the scaled share is the exact one
    to within a few parts in [2^53], and the percentage is the exact one to
    within half a hundredth and as little again. *)
Lemma percentageOf_close (t q : Q) (e : Entry) :
  0 < t -> 0 <= q -> q <= 2 * t -> value e = Fin q ->
  exists s p,
    scaledShare (Fin t) e = Fin s
    /\ percentageOf (Fin t) e = Fin p
    /\ Qabs (s - 10000 * (q / t))
       <= (1 # 100000000000) * (q / t) + (1 # 1000000000000000)
    /\ Qabs (p - 100 * (q / t))
       <= (5 # 1000) + (1 # 10000000000000) * (q / t) + (1 # 1000000000000000).
Proof.
  intros Ht Hq Hqt Hv.
  assert (Hy0 : 0 <= q / t) by (apply Qle_shift_div_l; lra).
  assert (Hy2 : q / t <= 2) by (apply Qle_shift_div_r; lra).
  pose proof halfLeast_small as Hh. pose proof halfLeast_pos as Hh0.
  unfold percentageOf, scaledShare.
  rewrite (proj2 (ltb_Fin 0 t) Ht), Hv, (div_Fin _ _ Ht).
  set (y := q / t) in *. clearbody y.
  destruct (round_finite y Hy0 ltac:(lra)) as [dl Hdl]. rewrite Hdl.
  destruct (round_nonneg _ _ Hy0 Hdl) as (Hdl0 & _ & Hdle & _).
  rewrite unitRoundoff_value in Hdle. apply Qabs_Qle_condition in Hdle as [Hdl1 Hdl2].
  change (mul (Fin dl) (Fin 10000)) with (round (dl * 10000)).
  assert (G1 : 0 <= dl * 10000) by lra. assert (G2 : dl * 10000 <= 100000000000) by lra.
  destruct (round_finite (dl * 10000) G1 G2) as [mu Hmu].
  rewrite Hmu.
  destruct (round_nonneg _ _ G1 Hmu) as (Hmu0 & _ & Hmue & _).
  rewrite unitRoundoff_value in Hmue. apply Qabs_Qle_condition in Hmue as [Hmu1 Hmu2].
  cbn [Math_round].
  pose proof (Qfloor_le (mu + (1 # 2))) as Hkl.
  pose proof (Qlt_floor (mu + (1 # 2))) as Hku.
  rewrite inject_Z_plus in Hku. change (inject_Z 1) with 1 in Hku.
  assert (HK0 : 0 <= inject_Z (Qfloor (mu + (1 # 2)))).
  { change 0 with (inject_Z (Qfloor 0)). rewrite <- Zle_Qle.
    apply Qfloor_resp_le. lra. }
  set (K := inject_Z (Qfloor (mu + (1 # 2)))) in *. clearbody K.
  rewrite div_Fin by reflexivity.
  assert (Hz : K / 100 * 100 == K) by field.
  set (z := K / 100) in *. clearbody z.
  assert (G3 : 0 <= z) by lra. assert (G4 : z <= 100000000000) by lra.
  destruct (round_finite z G3 G4) as [p Hp]. rewrite Hp.
  destruct (round_nonneg _ _ G3 Hp) as (Hp0 & _ & Hpe & _).
  rewrite unitRoundoff_value in Hpe. apply Qabs_Qle_condition in Hpe as [Hp1 Hp2].
  exists mu, p. split; [reflexivity |]. split; [reflexivity |].
  split; apply Qabs_Qle_condition; split; lra.
Qed.

End Float64PercentageFacts.

Section Float64TableFacts.

Import B64 Float64.

Lemma set_Forall_b64 (P : Entry -> Prop) (key : string) (e : Entry) (m : AllocationMap) :
  Forall P (values m) -> P e -> Forall P (values (set key e m)).
Proof.
  intros H He. induction m as [| [k v] m IH]; simpl.
  - now repeat constructor.
  - inversion H as [| ? ? Hv Hm]; subst.
    destruct (String.eqb k key); simpl; constructor; auto.
Qed.

Lemma field_onGrid (x : option Q) (q : Q) : field x = Fin q -> onGrid q.
Proof.
  apply orZero_onGrid. intros r Hr. destruct x as [x |]; [| discriminate].
  injection Hr as Hr. now apply round_onGrid in Hr.
Qed.

Lemma add_onGrid (a b : Num) (q : Q) : add a b = Fin q -> onGrid q.
Proof.
  intros H. apply add_Fin in H as (x & y & _ & _ & H).
  now apply round_onGrid in H.
Qed.

(** Every value in the allocation map came out of a rounding. *)
Lemma allocationMap_onGrid (d : Data) :
  Forall (fun e => forall q, value e = Fin q -> onGrid q)
    (values (allocationMap d)).
Proof.
  unfold allocationMap.
  set (P := fun e => forall q, value e = Fin q -> onGrid q).
  assert (Hfold : forall (X : Type) (step : AllocationMap -> X -> AllocationMap),
             (forall m x, Forall P (values m) -> Forall P (values (step m x))) ->
             forall xs m, Forall P (values m) ->
                          Forall P (values (fold_left step xs m))).
  { intros X step Hstep xs. induction xs as [| x xs IH]; intros m Hm; simpl.
    - exact Hm.
    - apply IH. now apply Hstep. }
  apply Hfold; [| apply Hfold; [| constructor]].
  - intros m h Hm. unfold addManualHolding.
    destruct (get _ m) as [e |] eqn:E.
    + apply set_Forall_b64; [exact Hm |]. intros q. cbn [value]. apply add_onGrid.
    + destruct (Js.inherited _); [exact Hm |].
      apply set_Forall_b64; [exact Hm |]. intros q. cbn [value]. apply add_onGrid.
  - intros m it Hm. unfold addBackendItem.
    destruct (String.eqb _ "__proto__"); [exact Hm |].
    apply set_Forall_b64; [exact Hm |]. intros q. cbn [value]. apply field_onGrid.
Qed.

Lemma value_le_exact_sum (es : list Entry) (e : Entry) :
  Forall (fun e => exists q, value e = Fin q /\ 0 <= q) es ->
  In e es ->
  toQ (value e) <= sumQ (List.map (fun e => toQ (value e)) es).
Proof.
  induction 1 as [| x es (q & Hq & Hq0) Hes IH]; simpl; [contradiction |].
  assert (H0 : 0 <= sumQ (List.map (fun e => toQ (value e)) es)).
  { clear IH. induction Hes as [| y es (r & Hr & Hr0) _ IH]; simpl; [lra |].
    rewrite Hr. simpl. lra. }
  rewrite Hq. simpl toQ. intros [<- | Hin].
  - rewrite Hq. simpl. lra.
  - specialize (IH Hin). lra.
Qed.




End Float64TableFacts.

Section Float64TableSum.

Import B64 Float64.

Lemma filter_of_map {A B : Type} (f : B -> bool) (g : A -> B) (l : list A) :
  List.filter f (List.map g l) = List.map g (List.filter (fun a => f (g a)) l).
Proof.
  induction l as [| a l IH]; simpl; [reflexivity |].
  destruct (f (g a)); simpl; now rewrite IH.
Qed.


(** The table is the sorted list of the groups above zero, each with its
    percentage of the total. *)
Lemma table_rows (d : Data) :
  getCombinedAssetAllocation d
  = Js.sort byValueDesc
      (List.map (fun e => mkRow e (percentageOf (totalOf (allocationMap d)) e))
         (List.filter (fun e => ltb (Fin 0) (value e)) (values (allocationMap d)))).
Proof.
  unfold getCombinedAssetAllocation, withPercentages.
  now rewrite filter_of_map.
Qed.


(** With no negative group and a positive finite total, the exact sum of
    the values is the computed total to within the rounding of the
    additions, and no group is worth more than twice the total. *)
Lemma exact_total_close (d : Data) (t : Q) :
  NonNegativeGroups d ->
  totalOf (allocationMap d) = Fin t ->
  (Z.of_nat (length (values (allocationMap d))) < 2 ^ 32)%Z ->
  0 < t ->
  1 <= inject_Z (Z.of_nat (length (values (allocationMap d))))
  /\ Qabs (sumQ (List.map (fun e => toQ (value e)) (values (allocationMap d))) / t - 1)
     <= inject_Z (Z.of_nat (length (values (allocationMap d))))
        * (1 # 2000000000000000)
  /\ sumQ (List.map (fun e => toQ (value e)) (values (allocationMap d))) / t <= 2
  /\ Forall (fun e => exists q, value e = Fin q /\ 0 <= q /\ q <= 2 * t)
       (values (allocationMap d)).
Proof.
  intros Hnn Htotal Hlen Ht. unfold NonNegativeGroups in Hnn.
  pose proof (allocationMap_onGrid d) as Hgrid.
  unfold totalOf in Htotal.
  set (es := values (allocationMap d)) in *. clearbody es.
  destruct (total_close es t Hnn Hgrid ltac:(lia) Htotal) as (_ & _ & HS0 & Hclose).
  assert (Hne : (1 <= Z.of_nat (length es))%Z).
  { destruct es; [| simpl; lia]. injection Htotal as <-. lra. }
  assert (Hle : forall e, In e es ->
                  toQ (value e) <= sumQ (List.map (fun e => toQ (value e)) es)).
  { intros e. now apply value_le_exact_sum. }
  set (S := sumQ (List.map (fun e => toQ (value e)) es)) in *.
  assert (Hw : S / t * t == S) by (field; intros Hz; lra).
  set (w := S / t) in *.
  assert (Hw0 : 0 <= w) by (apply Qle_shift_div_l; lra).
  rewrite Zle_Qle in Hne. rewrite Zlt_Qlt in Hlen.
  change (inject_Z 1) with 1 in Hne.
  change (inject_Z (2 ^ 32)) with 4294967296 in Hlen.
  set (N := inject_Z (Z.of_nat (length es))) in *.
  rewrite unitRoundoff_value in Hclose.
  assert (Hshare : - (N * (2 * (1 # 9007199254740992)) * w) <= 1 - w
                   /\ 1 - w <= N * (2 * (1 # 9007199254740992)) * w).
  { apply Qabs_Qle_condition in Hclose as [H1 H2].
    assert (E1 : (1 - w) * t == t - S) by (rewrite <- Hw; ring).
    assert (E2 : N * (2 * (1 # 9007199254740992)) * w * t
                 == N * (2 * (1 # 9007199254740992)) * S) by (rewrite <- Hw; ring).
    assert (E3 : - (N * (2 * (1 # 9007199254740992)) * w) * t
                 == - (N * (2 * (1 # 9007199254740992)) * S))
      by (rewrite <- Hw; ring).
    split; apply (Qmult_le_r _ _ t Ht).
    - rewrite E1, E3. exact H1.
    - rewrite E1, E2. exact H2. }
  destruct Hshare as [Hs1 Hs2].
  assert (F1 : N * w <= 4294967296 * w) by (apply Qmult_le_compat_r; lra).
  assert (F2 : 0 <= N * w) by (apply Qmult_le_0_compat; lra).
  assert (Hw2 : w <= 2) by lra.
  assert (F3 : w * N <= 2 * N) by (apply Qmult_le_compat_r; lra).
  assert (HS2 : S <= 2 * t).
  { rewrite <- Hw. apply Qmult_le_compat_r; lra. }
  split; [exact Hne |]. split; [| split; [exact Hw2 |]].
  - clearbody w N. apply Qabs_Qle_condition. split; lra.
  - apply List.Forall_forall. intros e He.
    pose proof (proj1 (List.Forall_forall _ _) Hnn e He) as (q & Hq & Hq0).
    specialize (Hle e He). rewrite Hq in Hle. simpl in Hle.
    exists q. split; [exact Hq |]. split; lra.
Qed.


(** The rows of the table are groups of the map above zero, each with the
    percentage the formula gives it. *)
Lemma table_row_of_group (d : Data) (r : Row) :
  In r (getCombinedAssetAllocation d) ->
  In (item r) (values (allocationMap d))
  /\ percentage r = percentageOf (totalOf (allocationMap d)) (item r).
Proof.
  rewrite table_rows. intros Hr.
  apply (Permutation_in _ (Permutation_sym (sort_Permutation _ byValueDesc _))) in Hr.
  apply List.in_map_iff in Hr as (e & <- & He).
  apply List.filter_In in He as [He _]. now split.
Qed.


End Float64TableSum.




(** What the rounding does at a tie, and just below one.  With groups
    worth 31 and 1 the scaled share of the smaller is 312.5 exactly and the
    table shows 3.13; with 57 in 800 the share is 7.125 percent, yet the
    scaled share comes out of the division and the multiplication as
    712.4999999999999 and the table shows 7.12. *)
Example percentage_at_a_tie_and_below :
  Float64.scaledShare (B64.Fin 32) (Float64.mkEntry "Gold" (B64.Fin 1) (B64.Fin 1))
  = B64.Fin (625 # 2)
  /\ List.map Float64.percentage (Float64.getCombinedAssetAllocation Samples.halfway)
     = [ B64.round (9688 # 100); B64.round (313 # 100) ]
  /\ Float64.scaledShare (B64.Fin 800) (Float64.mkEntry "Gold" (B64.Fin 57) (B64.Fin 1))
     = B64.Fin (6267216278323199 # 8796093022208)
  /\ 6267216278323199 # 8796093022208 < 1425 # 2
  /\ List.map Float64.percentage
       (Float64.getCombinedAssetAllocation Samples.fiftySevenOf800)
     = [ B64.round (9288 # 100); B64.round (712 # 100) ].
Proof. repeat split; vm_compute; reflexivity. Qed.

(** C2 fails as stated: with group values 1 and 31 the smaller share is
    3.125 percent; the table shows 3.13, where rounding half to even gives
    3.12.  All the numbers involved are binary64 numbers, and the binary64
    table shows the same. *)
Lemma tie_is_rounded_up_not_to_even :
  Dashboard.getCombinedAssetAllocation Samples.halfway
  = Some [ Dashboard.mkRow (Dashboard.mkEntry "Equity" 31 1) (9688 # 100);
           Dashboard.mkRow (Dashboard.mkEntry "Gold" 1 1) (313 # 100) ]
  /\ Spec.percentage 1 (Dashboard.totalOf (Dashboard.allocationMap Samples.halfway))
     = 312 # 100
  /\ ~ (313 # 100 == 312 # 100)
  /\ List.map Float64.percentage (Float64.getCombinedAssetAllocation Samples.halfway)
     = [ B64.round (9688 # 100); B64.round (313 # 100) ]
  /\ B64.round (313 # 100) <> B64.round (312 # 100).
Proof.
  split; [reflexivity |]. split; [reflexivity |]. split; [discriminate |].
  split; vm_compute; [reflexivity | discriminate].
Qed.

(** C2, amended.  With a positive total, each row's percentage is
    [Math.round(s) / 100], where [s] is the scaled share
    [(value / total) * 10000] as binary64 arithmetic computes it:
    [Math.round] takes [s] to the nearest integer, a tie going up and not
    to the even neighbour, and the division by 100 gives the binary64
    number nearest to that many hundredths.  When no group is negative and
    the total is a number, [s] is the exact scaled share to within
    [1e-10], and the percentage is the exact one to within half a
    hundredth and [1e-12]. *)
Theorem percentage_is_rounded_by_Math_round (d : Data) (r : Float64.Row) :
  In r (Float64.getCombinedAssetAllocation d) ->
  B64.ltb (B64.Fin 0) (Float64.totalOf (Float64.allocationMap d)) = true ->
  let total := Float64.totalOf (Float64.allocationMap d) in
  let s := Float64.scaledShare total (Float64.item r) in
  Float64.percentage r = B64.div (B64.Math_round s) (B64.Fin 100)
  /\ (forall x,
        s = B64.Fin x ->
        exists k : Z,
          B64.Math_round s = B64.Fin (inject_Z k)
          /\ x - (1 # 2) < inject_Z k <= x + (1 # 2)
          /\ Float64.percentage r = B64.round (inject_Z k / 100))
  /\ (forall t q,
        Float64.NonNegativeGroups d ->
        total = B64.Fin t ->
        (Z.of_nat (length (Float64.values (Float64.allocationMap d))) < 2 ^ 32)%Z ->
        Float64.value (Float64.item r) = B64.Fin q ->
        exists x p,
          s = B64.Fin x
          /\ Float64.percentage r = B64.Fin p
          /\ Qabs (x - 10000 * (q / t)) <= 1 # 10000000000
          /\ Qabs (p - 100 * (q / t)) <= (5 # 1000) + (1 # 1000000000000)).
Proof.
  intros Hr Hpos total s.
  destruct (table_row_of_group d r Hr) as [Hin Hp].
  assert (Hpct : Float64.percentage r = B64.div (B64.Math_round s) (B64.Fin 100)).
  { rewrite Hp. unfold Float64.percentageOf. now rewrite Hpos. }
  split; [exact Hpct |]. split.
  - intros x Hx. exists (Qfloor (x + (1 # 2))).
    rewrite Hpct, Hx. cbn [B64.Math_round].
    pose proof (Qfloor_le (x + (1 # 2))) as Hl.
    pose proof (Qlt_floor (x + (1 # 2))) as Hu.
    rewrite inject_Z_plus in Hu. change (inject_Z 1) with 1 in Hu.
    split; [reflexivity |]. split; [split; lra |].
    now apply div_Fin.
  - intros t q Hnn Ht Hlen Hq. fold total in Hpos. rewrite Ht in Hpos.
    apply ltb_Fin in Hpos.
    destruct (exact_total_close d t Hnn Ht Hlen Hpos) as (_ & _ & _ & Hall).
    pose proof (proj1 (List.Forall_forall _ _) Hall _ Hin) as (q' & Hq' & Hq0 & Hq2).
    rewrite Hq in Hq'. injection Hq' as <-.
    destruct (percentageOf_close t q _ Hpos Hq0 Hq2 Hq) as (x & p & Hx & Hpp & Hxc & Hpc).
    exists x, p. unfold s. rewrite Hp. fold total. rewrite Ht.
    split; [exact Hx |]. split; [exact Hpp |].
    assert (Hy0 : 0 <= q / t) by (apply Qle_shift_div_l; lra).
    assert (Hy2 : q / t <= 2) by (apply Qle_shift_div_r; lra).
    set (y := q / t) in *. clearbody y.
    apply Qabs_Qle_condition in Hxc as [Hx1 Hx2], Hpc as [Hp1 Hp2].
    split; apply Qabs_Qle_condition; split; lra.
Qed.

Lemma percentage_is_rounded_by_Math_round_witness :
  let d := Samples.halfway in
  let r := Float64.mkRow (Float64.mkEntry "Gold" (B64.Fin 1) (B64.Fin 1))
             (B64.round (313 # 100)) in
  In r (Float64.getCombinedAssetAllocation d)
  /\ B64.ltb (B64.Fin 0) (Float64.totalOf (Float64.allocationMap d)) = true
  /\ exists k : Z,
       (625 # 2) - (1 # 2) < inject_Z k <= (625 # 2) + (1 # 2)
       /\ Float64.percentage r = B64.round (inject_Z k / 100).
Proof.
  intros d r.
  assert (Hin : In r (Float64.getCombinedAssetAllocation d)).
  { vm_compute. right. left. reflexivity. }
  split; [exact Hin |]. split; [reflexivity |].
  destruct (percentage_is_rounded_by_Math_round d r Hin eq_refl) as (_ & Hround & _).
  destruct (Hround (625 # 2) eq_refl) as (k & _ & Hk & Hp).
  exists k. split; [exact Hk | exact Hp].
Defined.

(** ** The summary cards *)

(** The totals [Dashboard] shows when the summary is the one the spec
    prescribes: every manual holding enters once through the summary and
    once more through [manualHoldings]. *)
Lemma sumCurrentValue_reduce (hs : list Holding) :
  Js.reduce_sum (fun h => Js.orZero (current_value h)) hs 0 == Spec.sumCurrentValue hs.
Proof.
  rewrite reduce_sum_init. unfold Spec.sumCurrentValue.
  induction hs as [| h hs IH]; simpl; [lra |]. lra.
Qed.

Lemma totals_with_prescribed_summary (hs : list Holding) (aa : list AllocationItem) :
  let d := mkData (Spec.summaryOf hs) hs aa in
  Dashboard.totalPortfolioValue d
  == Spec.sumCurrentValue hs + Spec.sumCurrentValue (List.filter Dashboard.is_manual hs)
  /\ Dashboard.totalSchemeCount d
     == inject_Z (Z.of_nat (length hs))
        + inject_Z (Z.of_nat (length (List.filter Dashboard.is_manual hs))).
Proof.
  simpl. split.
  - unfold Dashboard.totalPortfolioValue, Dashboard.manualTotalValue. simpl.
    now rewrite sumCurrentValue_reduce.
  - reflexivity.
Qed.

(** C1 does not hold of the code.  After the manual bitcoin entry is the
    only holding, the summary reports one scheme worth 30000, which is the
    sum and the count over the holdings; the dashboard shows 60000 and two
    schemes, because it adds the manual holdings to a summary that already
    includes them. *)
Theorem manual_holdings_are_counted_twice :
  summary Samples.afterBitcoin = Spec.summaryOf (holdings Samples.afterBitcoin)
  /\ Spec.sumCurrentValue (holdings Samples.afterBitcoin) == 30000
  /\ Dashboard.totalPortfolioValue Samples.afterBitcoin == 60000
  /\ length (holdings Samples.afterBitcoin) = 1%nat
  /\ Dashboard.totalSchemeCount Samples.afterBitcoin == 2.
Proof. repeat split. Qed.

(** ** Facts about the manual-entry form *)

Section ManualEntryFacts.

Import ManualEntryModal.

Lemma pctReturnOf_positive (absoluteReturn invested : Q) :
  0 < invested ->
  pctReturnOf absoluteReturn invested = Some (absoluteReturn / invested * 100).
Proof.
  intros H. unfold pctReturnOf.
  assert (Hnz : ~ invested == 0) by (intros Hz; lra).
  apply ltb_lt in H as ->. now rewrite (div_defined _ _ Hnz).
Qed.

Lemma pctReturnOf_guarded (absoluteReturn invested : Q) :
  invested <= 0 -> pctReturnOf absoluteReturn invested = Some 0.
Proof. intros H. unfold pctReturnOf. now apply ltb_ge in H as ->. Qed.

(** A first submission always goes out, with the fields computed from the
    three numbers read off the form. *)
Lemma handleSubmit_sends (formData : FormData) (today : string) :
  let u := Js.orZero (Js.parseFloat (form_units formData)) in
  let p := Js.orZero (Js.parseFloat (form_purchase_nav formData)) in
  let c := Js.orZero (Js.parseFloat (form_current_nav formData)) in
  exists pr,
    pctReturnOf (u * c - u * p) (u * p) = Some pr
    /\ handleSubmit false formData today
       = Some (true,
               Some (mkHolding (form_scheme_name formData) (Some ""%string)
                       (form_asset_class formData)
                       (Some (Js.strOr (form_amc formData) "Manual"))
                       (Some ""%string) None (Some u) (Some c) (Some (u * c))
                       (Some (u * p)) (Some (u * c - u * p)) (Some pr)
                       (Some today))).
Proof.
  intros u p c. unfold handleSubmit. fold u p c.
  destruct (Qlt_le_dec 0 (u * p)) as [H | H].
  - eexists. split; [now apply pctReturnOf_positive |].
    now rewrite pctReturnOf_positive.
  - eexists. split; [now apply pctReturnOf_guarded |].
    now rewrite pctReturnOf_guarded.
Qed.

End ManualEntryFacts.

(** ** The manual-entry form in binary64 *)

Section Float64ManualEntryFacts.

Import B64 Float64.




End Float64ManualEntryFacts.




(** ** Facts about the holdings tab *)

Section HoldingsTabFacts.

Import HoldingsTab.





End HoldingsTabFacts.




(** C8.  A manual entry whose broker field is empty is sent with
    [amc = "Manual"], and one whose broker field is filled in is sent with
    that text; the holdings table shows "Manual" for a holding whose [amc]
    is absent or empty, and the [amc] itself otherwise; the Top 5 card of
    the overview shows the same label. *)
Theorem manual_is_the_default_amc
    (formData : ManualEntryModal.FormData) (today : string) (h : Holding) :
  (exists sent,
     ManualEntryModal.handleSubmit false formData today = Some (true, Some sent)
     /\ (ManualEntryModal.form_amc formData = ""%string ->
         amc sent = Some "Manual"%string)
     /\ (ManualEntryModal.form_amc formData <> ""%string ->
         amc sent = Some (ManualEntryModal.form_amc formData)))
  /\ (amc h = None \/ amc h = Some ""%string ->
      HoldingsTab.amcLabel h = "Manual"%string)
  /\ (forall a, amc h = Some a -> a <> ""%string -> HoldingsTab.amcLabel h = a)
  /\ OverviewTab.amcLabel h = HoldingsTab.amcLabel h.
Proof.
  split.
  - destruct (handleSubmit_sends formData today) as (pr & _ & Hsent).
    eexists. split; [exact Hsent |]. simpl. split.
    + now intros ->.
    + intros H. destruct (ManualEntryModal.form_amc formData); [contradiction | reflexivity].
  - unfold HoldingsTab.amcLabel. split; [| split].
    + now intros [-> | ->].
    + intros a -> Ha. simpl. destruct a; [contradiction | reflexivity].
    + reflexivity.
Qed.

Lemma manual_is_the_default_amc_witness :
  (exists sent,
     ManualEntryModal.handleSubmit false Samples.bitcoinForm "2026-01-15"
     = Some (true, Some sent)
     /\ amc sent = Some "Manual"%string)
  /\ (exists sent,
        ManualEntryModal.handleSubmit false Samples.coinbaseForm "2026-01-15"
        = Some (true, Some sent)
        /\ amc sent = Some "Coinbase"%string)
  /\ HoldingsTab.amcLabel
       (mkHolding "Old Wallet" None "crypto" None None None None None None None
          None None None)
     = "Manual"%string
  /\ HoldingsTab.amcLabel (Samples.statementHolding "HDFC Bank" "equity" "Zerodha" 1 1 1)
     = "Zerodha"%string.
Proof.
  split; [| split; [| split]].
  - destruct (manual_is_the_default_amc Samples.bitcoinForm "2026-01-15" Samples.bitcoin)
      as ((sent & Hsent & Hempty & _) & _).
    exists sent. split; [exact Hsent | now apply Hempty].
  - destruct (manual_is_the_default_amc Samples.coinbaseForm "2026-01-15" Samples.bitcoin)
      as ((sent & Hsent & _ & Hfilled) & _).
    exists sent. split; [exact Hsent | now apply Hfilled].
  - destruct (manual_is_the_default_amc Samples.bitcoinForm "2026-01-15"
                (mkHolding "Old Wallet" None "crypto" None None None None None None
                   None None None None))
      as (_ & Habsent & _ & _).
    apply Habsent. now left.
  - destruct (manual_is_the_default_amc Samples.bitcoinForm "2026-01-15"
                (Samples.statementHolding "HDFC Bank" "equity" "Zerodha" 1 1 1))
      as (_ & _ & Hkept & _).
    now apply Hkept.
Defined.

(** ** The deduplicator *)

Section DeduplicatorFacts.

Variable fingerprint : list Byte.byte -> string.
Variable normalize : list Byte.byte -> option (Spec.StatementFormat * list Holding).

Lemma ingest_known (now : N) (raw : list Byte.byte) (p : Spec.Portfolio) :
  is_Some (Spec.sources p !! fingerprint raw) ->
  Spec.ingest fingerprint normalize now raw p = Spec.DuplicateUpload p.
Proof. intros [s Hs]. unfold Spec.ingest. now rewrite Hs. Qed.

(** After an upload the statement is either on record or was not
    understood, in which case nothing changed. *)
Lemma upload_cases (now : N) (raw : list Byte.byte) (p : Spec.Portfolio) :
  is_Some (Spec.sources (Spec.upload fingerprint normalize now raw p) !! fingerprint raw)
  \/ (Spec.upload fingerprint normalize now raw p = p /\ normalize raw = None).
Proof.
  unfold Spec.upload, Spec.ingest.
  destruct (Spec.sources p !! fingerprint raw) as [s |] eqn:Hs.
  - left. rewrite Hs. eauto.
  - destruct (normalize raw) as [[fmt hs] |].
    + left. simpl. rewrite lookup_insert_eq. eauto.
    + now right.
Qed.

Lemma upload_twice (now later : N) (raw : list Byte.byte) (p : Spec.Portfolio) :
  Spec.upload fingerprint normalize later raw
    (Spec.upload fingerprint normalize now raw p)
  = Spec.upload fingerprint normalize now raw p.
Proof.
  destruct (upload_cases now raw p) as [Hknown | [Hsame Hnone]].
  - unfold Spec.upload at 1. now rewrite ingest_known.
  - rewrite Hsame. unfold Spec.upload, Spec.ingest. rewrite Hnone.
    now destruct (Spec.sources p !! fingerprint raw).
Qed.

End DeduplicatorFacts.

(** C6.  Uploading the same bytes a second time leaves the portfolio exactly
    as the first upload left it: the same sources, hence as many of them,
    and the same derived holdings; and whenever a source with the
    fingerprint of the bytes is already on record, the upload is reported
    as a duplicate and returns the portfolio as it is. *)
Theorem reupload_is_a_no_op
    (fingerprint : list Byte.byte -> string)
    (normalize : list Byte.byte -> option (Spec.StatementFormat * list Holding))
    (merger : gmap string Spec.StatementSource -> gmap string Holding -> list Holding)
    (now later : N) (raw : list Byte.byte) (p : Spec.Portfolio) :
  let once := Spec.upload fingerprint normalize now raw p in
  let twice := Spec.upload fingerprint normalize later raw once in
  twice = once
  /\ size (Spec.sources twice) = size (Spec.sources once)
  /\ Spec.holdingsOf merger twice = Spec.holdingsOf merger once
  /\ (is_Some (Spec.sources p !! fingerprint raw) ->
      Spec.ingest fingerprint normalize now raw p = Spec.DuplicateUpload p
      /\ once = p).
Proof.
  intros once twice.
  assert (H : twice = once) by apply upload_twice.
  rewrite H. repeat split.
  - now apply ingest_known.
  - subst once. unfold Spec.upload. now rewrite ingest_known.
Qed.

Lemma reupload_is_a_no_op_witness :
  let once :=
    Spec.upload Samples.lengthFingerprint Samples.oneRowNormalizer 1%N
      Samples.statementFile Samples.emptyPortfolio in
  size (Spec.sources once) = 1%nat
  /\ Spec.ingest Samples.lengthFingerprint Samples.oneRowNormalizer 2%N
       Samples.statementFile once
     = Spec.DuplicateUpload once
  /\ Spec.upload Samples.lengthFingerprint Samples.oneRowNormalizer 2%N
       Samples.statementFile once
     = once.
Proof.
  intros once.
  assert (Hknown : is_Some (Spec.sources once !! Samples.lengthFingerprint Samples.statementFile)).
  { eexists. reflexivity. }
  split; [reflexivity |]. split.
  - apply (reupload_is_a_no_op Samples.lengthFingerprint Samples.oneRowNormalizer
             Samples.concatMerger 2%N 3%N Samples.statementFile once), Hknown.
  - apply (reupload_is_a_no_op Samples.lengthFingerprint Samples.oneRowNormalizer
             Samples.concatMerger 1%N 2%N Samples.statementFile Samples.emptyPortfolio).
Defined.

(** * Further properties of the code *)

(** ** The range and the order of the percentages *)

Section PercentageFacts.

Import Dashboard.









End PercentageFacts.




(** ** The overview *)

Lemma StronglySorted_across {A : Type} (R : A -> A -> Prop) (l1 l2 : list A) :
  StronglySorted R (l1 ++ l2) ->
  forall a b, In a l1 -> In b l2 -> R a b.
Proof.
  induction l1 as [| x l1 IH]; simpl; intros Hs a b Ha Hb; [contradiction |].
  apply StronglySorted_inv in Hs as [Hs Hx].
  destruct Ha as [<- | Ha]; [| now apply IH].
  rewrite List.Forall_forall in Hx. apply Hx, in_or_app. now right.
Qed.

(** X5.  The Top 5 card shows five holdings, or all of them when there are
    fewer; none of the holdings left out is worth more than one that is
    shown; and the shown and the left-out together are the holdings
    given. *)
Theorem top_holdings_are_the_largest (holdings : list Holding) :
  length (OverviewTab.topHoldings holdings) = Nat.min 5 (length holdings)
  /\ (forall shown hidden,
        In shown (OverviewTab.topHoldings holdings) ->
        In hidden (skipn 5 (OverviewTab.allHoldings holdings)) ->
        Js.orZero (current_value hidden) <= Js.orZero (current_value shown))
  /\ Permutation holdings
       (OverviewTab.topHoldings holdings
        ++ skipn 5 (OverviewTab.allHoldings holdings)).
Proof.
  assert (Htop : OverviewTab.topHoldings holdings
                 = firstn 5 (OverviewTab.allHoldings holdings)) by reflexivity.
  pose proof (sort_Permutation Holding OverviewTab.byCurrentValueDesc holdings) as Hperm.
  fold (OverviewTab.allHoldings holdings) in Hperm.
  rewrite Htop. repeat split.
  - rewrite length_firstn, <- (Permutation_length Hperm). reflexivity.
  - intros shown hidden Hs Hh.
    apply (StronglySorted_across
             (fun a b => Js.orZero (current_value b) <= Js.orZero (current_value a))
             (firstn 5 (OverviewTab.allHoldings holdings))
             (skipn 5 (OverviewTab.allHoldings holdings))); [| exact Hs | exact Hh].
    rewrite firstn_skipn.
    apply (sort_sorted Holding OverviewTab.byCurrentValueDesc
             (fun h => Js.orZero (current_value h))).
    reflexivity.
  - now rewrite firstn_skipn.
Qed.

Lemma top_holdings_are_the_largest_witness :
  List.map scheme_name (OverviewTab.topHoldings (holdings Samples.sixHoldings))
  = ["F"; "B"; "D"; "A"; "C"]%string
  /\ Js.orZero (current_value (Samples.statementHolding "E" "debt" "Z" 1 2 2))
     <= Js.orZero (current_value (Samples.statementHolding "C" "equity" "Z" 1 5 5)).
Proof.
  split; [reflexivity |].
  apply (top_holdings_are_the_largest (holdings Samples.sixHoldings));
    simpl; tauto.
Defined.

Lemma substring_head (n : nat) (s : string) :
  (n <= String.length s)%nat ->
  String.length (String.substring 0 n s) = n
  /\ exists tail, s = (String.substring 0 n s ++ tail)%string.
Proof.
  revert s. induction n as [| n IH]; intros s Hn.
  - destruct s; simpl; split; try reflexivity; eexists; reflexivity.
  - destruct s as [| c s]; simpl in *; [lia |].
    destruct (IH s) as (Hlen & tail & Htail); [lia |].
    split; [now rewrite Hlen |]. exists tail.
    change (String c s = String c (String.substring 0 n s ++ tail)%string).
    now f_equal.
Qed.

Lemma length_append (s t : string) :
  String.length (s ++ t) = (String.length s + String.length t)%nat.
Proof.
  induction s as [| c s IH]; [reflexivity |].
  change (S (String.length (s ++ t)) = S (String.length s + String.length t)).
  now rewrite IH.
Qed.

(** X7.  A tick label of the AMC chart is never longer than 18 characters:
    a name of up to 15 characters is shown as it is, a longer one as its
    first 15 characters followed by three dots. *)
Theorem tickFormatter_shortens_long_names (value : string) :
  (String.length (OverviewTab.tickFormatter value) <= 18)%nat
  /\ ((String.length value <= 15)%nat -> OverviewTab.tickFormatter value = value)
  /\ ((15 < String.length value)%nat ->
      exists head tail,
        value = (head ++ tail)%string /\ String.length head = 15%nat
        /\ OverviewTab.tickFormatter value = (head ++ "...")%string).
Proof.
  unfold OverviewTab.tickFormatter.
  destruct (15 <? String.length value)%nat eqn:E.
  - apply Nat.ltb_lt in E.
    destruct (substring_head 15 value) as (Hlen & tail & Htail); [lia |].
    repeat split.
    + rewrite length_append, Hlen. simpl. lia.
    + lia.
    + intros _. exists (String.substring 0 15 value), tail. auto.
  - apply Nat.ltb_ge in E. repeat split; [lia | lia].
Qed.

Lemma tickFormatter_shortens_long_names_witness :
  OverviewTab.tickFormatter "ICICI Prudential Mutual Fund"
  = "ICICI Prudentia..."%string
  /\ OverviewTab.tickFormatter "Zerodha" = "Zerodha"%string.
Proof.
  destruct (tickFormatter_shortens_long_names "ICICI Prudential Mutual Fund")
    as (_ & _ & Hlong).
  destruct (tickFormatter_shortens_long_names "Zerodha") as (_ & Hshort & _).
  split; [| apply Hshort; simpl; lia].
  reflexivity.
Defined.


(** ** The holdings tab *)

Section HoldingsTabMoreFacts.

Import HoldingsTab.

Lemma filter_true {A : Type} (l : list A) : List.filter (fun _ => true) l = l.
Proof. induction l as [| x l IH]; simpl; [reflexivity | now rewrite IH]. Qed.

Lemma filter_matches (key : string) (l : list Holding) :
  List.filter (matches key) l
  = if String.eqb key "all" then l
    else List.filter (fun h => String.eqb (asset_class h) key) l.
Proof.
  unfold matches. destruct (String.eqb key "all"); simpl; [apply filter_true |].
  reflexivity.
Qed.

(** A comparator that always answers 0 leaves the order alone. *)
Lemma sort_constant_zero {A : Type} (comparefn : A -> A -> option Q) (l : list A) :
  (forall a b, comparefn a b = Some 0) -> Js.sort comparefn l = l.
Proof.
  intros Hz. induction l as [| x l IH]; [reflexivity |].
  change (Js.sort comparefn (x :: l))
    with (Js.insert comparefn x (Js.sort comparefn l)).
  rewrite IH. destruct l as [| y l]; simpl; [reflexivity |]. now rewrite Hz.
Qed.

(** Sortedness needs the comparator's shape only on the members of the
    list. *)
Lemma insert_sorted_on {A : Type} (comparefn : A -> A -> option Q) (key : A -> Q)
    (x : A) (l : list A) :
  (forall b, In b l -> comparefn x b = Some (key b - key x)) ->
  StronglySorted (fun a b => key b <= key a) l ->
  StronglySorted (fun a b => key b <= key a) (Js.insert comparefn x l).
Proof.
  intros Hcmp Hs. induction Hs as [| y ys Hs IH Hy]; simpl.
  - repeat constructor.
  - rewrite Hcmp by now left. simpl.
    destruct (Js.ltb 0 (key y - key x)) eqn:E.
    + apply ltb_lt in E. constructor.
      * apply IH. intros b Hb. apply Hcmp. now right.
      * apply (Permutation_Forall (insert_Permutation A comparefn x ys)).
        constructor; [lra | exact Hy].
    + apply ltb_ge in E. constructor; [now constructor |].
      constructor; [lra |].
      eapply List.Forall_impl; [| exact Hy].
      intros z Hz. simpl in Hz. lra.
Qed.

Lemma sort_sorted_on {A : Type} (comparefn : A -> A -> option Q) (key : A -> Q)
    (l : list A) :
  (forall a b, In a l -> In b l -> comparefn a b = Some (key b - key a)) ->
  StronglySorted (fun a b => key b <= key a) (Js.sort comparefn l).
Proof.
  induction l as [| x l IH]; intros Hcmp; [constructor |].
  change (Js.sort comparefn (x :: l))
    with (Js.insert comparefn x (Js.sort comparefn l)).
  apply insert_sorted_on.
  - intros b Hb. apply Hcmp; [now left | right].
    now apply (Permutation_in b (Permutation_sym (sort_Permutation A comparefn l))).
  - apply IH. intros a b Ha Hb. apply Hcmp; now right.
Qed.

End HoldingsTabMoreFacts.

(** X9.  On every tab and in every sort mode, the number in the tab's badge
    is the number of rows the table shows under that tab. *)
Theorem badge_counts_the_rows_shown (key sortBy : string) (holdings : list Holding) :
  length (HoldingsTab.filteredHoldings key sortBy holdings)
  = HoldingsTab.getCounts key holdings.
Proof.
  unfold HoldingsTab.filteredHoldings, HoldingsTab.getCounts.
  rewrite <- (Permutation_length (sort_Permutation _ _ _)), filter_matches.
  now destruct (String.eqb key "all").
Qed.

(** X10.  The class tabs split the holdings: the count under All is the sum
    of the counts under the seven class tabs plus the number of holdings
    whose class, once normalised, has no tab of its own (a hybrid fund, for
    one); such a holding is listed under All only. *)
Theorem class_tabs_split_the_holdings (holdings : list Holding) :
  HoldingsTab.getCounts "all" holdings
  = (list_sum (List.map (fun key => HoldingsTab.getCounts key holdings)
                 HoldingsTab.assetClassKeys)
     + length (List.filter
                 (fun h => negb (existsb
                                   (String.eqb (HoldingsTab.normalizeAssetClass (asset_class h)))
                                   HoldingsTab.assetClassKeys))
                 holdings))%nat.
Proof.
  unfold HoldingsTab.getCounts, HoldingsTab.assetClassKeys, HoldingsTab.allHoldings.
  simpl String.eqb. cbv iota. simpl List.map at 1. simpl list_sum.
  induction holdings as [| h hs IH]; [reflexivity |].
  simpl List.map. simpl List.filter. simpl existsb.
  simpl length at 1. rewrite IH. clear IH.
  set (c := HoldingsTab.normalizeAssetClass (asset_class h)).
  destruct (String.eqb c "equity") eqn:E1;
    [apply String.eqb_eq in E1; rewrite E1; simpl; lia |].
  destruct (String.eqb c "mutual_funds") eqn:E2;
    [apply String.eqb_eq in E2; rewrite E2; simpl; lia |].
  destruct (String.eqb c "us_equity") eqn:E3;
    [apply String.eqb_eq in E3; rewrite E3; simpl; lia |].
  destruct (String.eqb c "crypto") eqn:E4;
    [apply String.eqb_eq in E4; rewrite E4; simpl; lia |].
  destruct (String.eqb c "cash") eqn:E5;
    [apply String.eqb_eq in E5; rewrite E5; simpl; lia |].
  destruct (String.eqb c "debt") eqn:E6;
    [apply String.eqb_eq in E6; rewrite E6; simpl; lia |].
  destruct (String.eqb c "gold") eqn:E7;
    [apply String.eqb_eq in E7; rewrite E7; simpl; lia |].
  simpl. lia.
Qed.

(** X11.  With every [current_value] present, the rows of a tab sorted by
    value come largest first; with every [percentage_return] present, the
    rows sorted by returns come best first. *)
Theorem holdings_tab_rows_are_sorted (key : string) (holdings : list Holding) :
  (Forall (fun h => is_Some (current_value h)) holdings ->
   ByCurrentValueDesc (HoldingsTab.filteredHoldings key "value" holdings))
  /\ (Forall (fun h => is_Some (percentage_return h)) holdings ->
      StronglySorted
        (fun a b => Js.orZero (percentage_return b) <= Js.orZero (percentage_return a))
        (HoldingsTab.filteredHoldings key "returns" holdings)).
Proof.
  assert (Hmem : forall P : Holding -> Prop,
             (forall h c, P h -> P (with_asset_class h c)) ->
             Forall P holdings ->
             forall h, In h (List.filter (HoldingsTab.matches key)
                               (HoldingsTab.allHoldings holdings)) -> P h).
  { intros P HP Hall h Hin. apply List.filter_In in Hin as [Hin _].
    apply in_map_iff in Hin as (h0 & <- & Hin0). apply HP.
    rewrite List.Forall_forall in Hall. now apply Hall. }
  split; intros Hall; unfold ByCurrentValueDesc, HoldingsTab.filteredHoldings.
  - apply (sort_sorted_on (HoldingsTab.comparator "value")
             (fun h => Js.orZero (current_value h))).
    intros a b Ha Hb.
    apply (Hmem (fun h => is_Some (current_value h))) in Ha as [va Ha];
      [| now intros | exact Hall].
    apply (Hmem (fun h => is_Some (current_value h))) in Hb as [vb Hb];
      [| now intros | exact Hall].
    unfold HoldingsTab.comparator. simpl. now rewrite Ha, Hb.
  - apply (sort_sorted_on (HoldingsTab.comparator "returns")
             (fun h => Js.orZero (percentage_return h))).
    intros a b Ha Hb.
    apply (Hmem (fun h => is_Some (percentage_return h))) in Ha as [va Ha];
      [| now intros | exact Hall].
    apply (Hmem (fun h => is_Some (percentage_return h))) in Hb as [vb Hb];
      [| now intros | exact Hall].
    unfold HoldingsTab.comparator. simpl. now rewrite Ha, Hb.
Qed.

Lemma holdings_tab_rows_are_sorted_witness :
  List.map scheme_name
    (HoldingsTab.filteredHoldings "mutual_funds" "value" (holdings Samples.sixHoldings))
  = ["F"; "B"]%string
  /\ ByCurrentValueDesc
       (HoldingsTab.filteredHoldings "mutual_funds" "value" (holdings Samples.sixHoldings)).
Proof.
  split; [reflexivity |].
  apply (holdings_tab_rows_are_sorted "mutual_funds" (holdings Samples.sixHoldings)).
  repeat constructor; eexists; reflexivity.
Defined.

(** X12.  With a sort mode that is neither 'value' nor 'returns' the rows of
    a tab keep the order the holdings came in. *)
Theorem unknown_sort_mode_keeps_the_order (key sortBy : string) (holdings : list Holding) :
  sortBy <> "value"%string -> sortBy <> "returns"%string ->
  HoldingsTab.filteredHoldings key sortBy holdings
  = List.filter (HoldingsTab.matches key) (HoldingsTab.allHoldings holdings).
Proof.
  intros Hv Hr. unfold HoldingsTab.filteredHoldings.
  apply sort_constant_zero. intros a b. unfold HoldingsTab.comparator.
  apply String.eqb_neq in Hv, Hr. now rewrite Hv, Hr.
Qed.

Lemma unknown_sort_mode_keeps_the_order_witness :
  List.map scheme_name
    (HoldingsTab.filteredHoldings "equity" "name" (holdings Samples.sixHoldings))
  = ["A"; "C"]%string.
Proof.
  rewrite (unknown_sort_mode_keeps_the_order "equity" "name" (holdings Samples.sixHoldings));
    [reflexivity | discriminate | discriminate].
Defined.

(** ** The manual-entry form, further *)

(** X14.  The form submits once: the first submission sends the entry and
    raises the [isSubmitting] flag, and a further submission in the state
    the first one left, whatever the form then holds, sends nothing and
    leaves the flag up. *)
Theorem manual_entry_is_sent_once
    (formData again : ManualEntryModal.FormData) (today later : string) :
  exists flag h,
    ManualEntryModal.handleSubmit false formData today = Some (flag, Some h)
    /\ ManualEntryModal.handleSubmit flag again later = Some (flag, None).
Proof.
  destruct (handleSubmit_sends formData today) as (pr & _ & Hsent).
  exists true. eexists. split; [exact Hsent | reflexivity].
Qed.



(** ** The login form *)

Section LoginFacts.

Import Login.

Lemma digitsOnly_as_filter (value : string) :
  list_ascii_of_string (digitsOnly value)
  = List.filter isDigit (list_ascii_of_string value).
Proof.
  induction value as [| c r IH]; simpl; [reflexivity |].
  destruct (isDigit c); simpl; now rewrite IH.
Qed.

Lemma digitsOnly_digits (value : string) :
  Forall (fun c => isDigit c = true) (list_ascii_of_string (digitsOnly value)).
Proof.
  rewrite digitsOnly_as_filter. apply List.Forall_forall.
  intros c Hc. now apply List.filter_In in Hc.
Qed.

Lemma digitsOnly_fixed (value : string) :
  Forall (fun c => isDigit c = true) (list_ascii_of_string value) ->
  digitsOnly value = value.
Proof.
  induction value as [| c r IH]; simpl; [reflexivity |].
  intros H. apply Forall_cons in H as [-> H]. now rewrite IH.
Qed.

Lemma run_snoc (actions : list Action) (a : Action) :
  run (actions ++ [a]) = act a (run actions).
Proof. unfold run. now rewrite fold_left_app. Qed.

End LoginFacts.

(** X17.  What the OTP box keeps of the text typed into it is exactly its
    decimal digits, in their order: the result has digits only and is never
    longer than the text, cleaning it again changes nothing, and a text of
    digits is kept whole. *)
Theorem otp_box_keeps_the_digits (value : string) :
  list_ascii_of_string (Login.digitsOnly value)
  = List.filter Login.isDigit (list_ascii_of_string value)
  /\ Forall (fun c => Login.isDigit c = true)
       (list_ascii_of_string (Login.digitsOnly value))
  /\ (String.length (Login.digitsOnly value) <= String.length value)%nat
  /\ Login.digitsOnly (Login.digitsOnly value) = Login.digitsOnly value
  /\ (Forall (fun c => Login.isDigit c = true) (list_ascii_of_string value) ->
      Login.digitsOnly value = value).
Proof.
  split; [apply digitsOnly_as_filter |].
  split; [apply digitsOnly_digits |]. split.
  - induction value as [| c r IH]; simpl; [lia |].
    destruct (Login.isDigit c); simpl; lia.
  - split; [apply digitsOnly_fixed, digitsOnly_digits | apply digitsOnly_fixed].
Qed.

Lemma otp_box_keeps_the_digits_witness :
  Login.digitsOnly "12 a3-4" = "1234"%string
  /\ Login.digitsOnly "1234" = "1234"%string.
Proof.
  split; [reflexivity |].
  apply (otp_box_keeps_the_digits "1234"). repeat constructor.
Defined.

(** X18.  The OTP step is reached only through a send-otp answer that
    reported success: whatever was typed, submitted or answered, if the form
    is on the OTP step then such an answer is among what happened. *)
Theorem otp_step_needs_a_successful_send (actions : list Login.Action) :
  Login.step (Login.run actions) = Login.otp_step ->
  exists message,
    In (Login.SubmitPhone (Login.SendResult true message)) actions.
Proof.
  induction actions as [| a actions IH] using rev_ind; [discriminate |].
  rewrite run_snoc. intros H.
  assert (Hkeep : Login.step (Login.run actions) = Login.otp_step ->
                  exists message,
                    In (Login.SubmitPhone (Login.SendResult true message))
                      (actions ++ [a])).
  { intros Hs. destruct (IH Hs) as [m Hm]. exists m. apply in_or_app. now left. }
  destruct a as [v | v | [| [] m] | [| [] [cr |]] | |]; simpl in H;
    try (now apply Hkeep); try discriminate.
  exists m. apply in_or_app. right. now left.
Qed.

Lemma otp_step_needs_a_successful_send_witness :
  exists message,
    In (Login.SubmitPhone (Login.SendResult true message))
      [ Login.TypePhone "7899021114";
        Login.SubmitPhone (Login.SendResult false (Some "Too many requests"%string));
        Login.SubmitPhone (Login.SendResult true None);
        Login.TypeOtp "12a34" ].
Proof.
  apply (otp_step_needs_a_successful_send
           [ Login.TypePhone "7899021114";
             Login.SubmitPhone (Login.SendResult false (Some "Too many requests"%string));
             Login.SubmitPhone (Login.SendResult true None);
             Login.TypeOtp "12a34" ]).
  reflexivity.
Defined.

(** X19.  In every state the form can get into, the OTP it holds consists of
    digits only; so an enabled verify button means an OTP of at least four
    digits.  And the button is enabled whenever it is drawn as enabled. *)
Theorem verify_button_needs_four_digits (actions : list Login.Action) :
  let st := Login.run actions in
  Forall (fun c => Login.isDigit c = true) (list_ascii_of_string (Login.otp st))
  /\ (Login.verifyDisabled st = false -> (4 <= String.length (Login.otp st))%nat)
  /\ (Login.verifyLooksDisabled st = false -> Login.verifyDisabled st = false).
Proof.
  cbv zeta. split; [| split].
  - induction actions as [| a actions IH] using rev_ind; [constructor |].
    rewrite run_snoc.
    destruct a as [v | v | [| [] m] | [| [] [cr |]] | |]; simpl;
      try exact IH; try constructor.
    apply digitsOnly_digits.
  - unfold Login.verifyDisabled. intros H.
    apply orb_false_iff in H as [_ H]. apply Nat.ltb_ge in H. exact H.
  - unfold Login.verifyLooksDisabled, Login.verifyDisabled. intros H.
    apply orb_false_iff in H as [-> H]. apply negb_false_iff, Nat.eqb_eq in H.
    now rewrite H.
Qed.

Lemma verify_button_needs_four_digits_witness :
  let st := Login.run [ Login.SubmitPhone (Login.SendResult true None);
                        Login.TypeOtp "1 2 3 4 5" ] in
  Login.otp st = "12345"%string
  /\ (4 <= String.length (Login.otp st))%nat
  /\ Login.verifyLooksDisabled st = true.
Proof.
  intros st. split; [reflexivity |]. split; [| reflexivity].
  apply (verify_button_needs_four_digits
           [ Login.SubmitPhone (Login.SendResult true None);
             Login.TypeOtp "1 2 3 4 5" ]).
  reflexivity.
Defined.

(** X20.  Verifying the OTP logs in only on an ok response whose body could
    be read, and then shows no error; in every other case [onLogin] is not
    called and an error message is shown.  Either way the spinner is off
    afterwards and the step, the phone number and the OTP are as before. *)
Theorem login_only_on_an_ok_response (o : Login.VerifyOutcome) (st : Login.State) :
  let st' := fst (Login.handleVerifyOTP o st) in
  let call := snd (Login.handleVerifyOTP o st) in
  (forall credentials,
     call = Some credentials <-> o = Login.VerifyResponded true (Some credentials))
  /\ (call = None <-> Login.error st' <> ""%string)
  /\ Login.isLoading st' = false
  /\ Login.step st' = Login.step st
  /\ Login.phone st' = Login.phone st
  /\ Login.otp st' = Login.otp st.
Proof.
  cbv zeta. destruct o as [| [] [cr |]]; simpl; repeat split;
    try discriminate; try congruence; try tauto.
Qed.

(** ** The file drop zone *)

Lemma substring_whole (s : string) : String.substring 0 (String.length s) s = s.
Proof. induction s as [| c s IH]; simpl; [reflexivity | now rewrite IH]. Qed.

Lemma substring_split (i : nat) (s : string) :
  (i <= String.length s)%nat ->
  s = (String.substring 0 i s ++ String.substring i (String.length s - i) s)%string.
Proof.
  revert s. induction i as [| i IH]; intros s Hi.
  - rewrite Nat.sub_0_r, substring_whole. now destruct s.
  - destruct s as [| c s]; simpl in Hi; [lia |].
    change (String c s
            = String c (String.substring 0 i s
                        ++ String.substring i (String.length s - i) s)%string).
    f_equal. apply IH. lia.
Qed.

(** [endsWith] finds a suffix only where there is one. *)
Lemma endsWith_suffix (s suffix : string) :
  Js.endsWith s suffix = true -> exists stem, s = (stem ++ suffix)%string.
Proof.
  unfold Js.endsWith. intros H. apply andb_true_iff in H as [Hk Heq].
  apply Nat.leb_le in Hk. apply String.eqb_eq in Heq.
  exists (String.substring 0 (String.length s - String.length suffix) s).
  pose proof (substring_split (String.length s - String.length suffix) s) as Hs.
  replace (String.length s - (String.length s - String.length suffix))%nat
    with (String.length suffix) in Hs by lia.
  rewrite Heq in Hs. apply Hs. lia.
Qed.

(** X21.  Dropping a file onto the zone ends the dragging state and changes
    the selection only to a file whose name, in lower case, ends in ".pdf";
    any other drop, or a drop of nothing, leaves the selection as it was.
    The file picker has no such check: whatever file it hands over is the
    one submitted. *)
Theorem drop_takes_pdf_files_only
    (droppedFile : option FileUpload.File) (st : FileUpload.State) :
  FileUpload.isDragging (FileUpload.handleDrop droppedFile st) = false
  /\ (FileUpload.file (FileUpload.handleDrop droppedFile st) = FileUpload.file st
      \/ exists f n stem,
           droppedFile = Some f
           /\ FileUpload.file (FileUpload.handleDrop droppedFile st) = Some f
           /\ FileUpload.name f = Some n
           /\ Js.toLowerCase n = (stem ++ ".pdf")%string)
  /\ (forall picked,
        FileUpload.handleSubmit (FileUpload.handleFileSelect (Some picked) st)
        = Some picked).
Proof.
  unfold FileUpload.handleDrop.
  destruct (FileUpload.isPdf droppedFile) eqn:E; simpl; repeat split; auto.
  right. destruct droppedFile as [f |]; [| discriminate].
  simpl in E. destruct (FileUpload.name f) as [n |] eqn:En; [| discriminate].
  apply endsWith_suffix in E as [stem Hstem].
  exists f, n, stem. auto.
Qed.

(** ** The application shell *)

Section AppFacts.

Import App.

Lemma render_needs_login (st : State) :
  isAuthenticated st = false -> render st = LoginView.
Proof. intros H. unfold render. now rewrite H. Qed.

End AppFacts.

(** X22.  Logging out leaves the login screen, an empty portfolio and an
    empty token store, whatever the state was; and an upload or a reset
    whose answer arrives after the logout does not bring the dashboard
    back. *)
Theorem logout_ends_the_session
    (st : App.State) (o : App.UploadOutcome) (confirmed : bool)
    (response : Dashboard.FetchOutcome) :
  let out := fst (App.handleLogout st) in
  App.render out = App.LoginView
  /\ App.portfolioData out = None
  /\ App.segments out = []
  /\ snd (App.handleLogout st) = App.mkStorage None None
  /\ App.render (App.handleUpload o out) = App.LoginView
  /\ App.render (App.handleResetPortfolio confirmed response out) = App.LoginView.
Proof.
  cbv zeta. repeat split.
  - apply render_needs_login. now destruct o as [| [] [d |] e].
  - apply render_needs_login. now destruct confirmed, response as [| []].
Qed.

(** X23.  An upload that fails, because the request does not get through or
    because the server reports no success, keeps the portfolio, its
    segments and the screen choice as they were, shows an error and stops
    the spinner. *)
Theorem failed_upload_keeps_the_portfolio (o : App.UploadOutcome) (st : App.State) :
  (o = App.UploadRejected \/ exists data err, o = App.UploadResult false data err) ->
  App.portfolioData (App.handleUpload o st) = App.portfolioData st
  /\ App.segments (App.handleUpload o st) = App.segments st
  /\ App.showUpload (App.handleUpload o st) = App.showUpload st
  /\ (exists message, App.error (App.handleUpload o st) = Some message
                      /\ message <> ""%string)
  /\ App.isLoading (App.handleUpload o st) = false.
Proof.
  intros [-> | (data & err & ->)]; simpl; repeat split.
  - eexists. split; [reflexivity | discriminate].
  - eexists. split; [reflexivity |].
    destruct err as [[| c e] |]; discriminate.
Qed.

Lemma failed_upload_keeps_the_portfolio_witness :
  App.portfolioData
    (App.handleUpload (App.UploadResult false None (Some "Wrong password"%string))
       Samples.viewingPortfolio)
  = App.portfolioData Samples.viewingPortfolio
  /\ App.error
       (App.handleUpload (App.UploadResult false None (Some "Wrong password"%string))
          Samples.viewingPortfolio)
     = Some "Wrong password"%string.
Proof.
  split; [| reflexivity].
  apply (failed_upload_keeps_the_portfolio
           (App.UploadResult false None (Some "Wrong password"%string))
           Samples.viewingPortfolio).
  right. eauto.
Defined.

(** X24.  After a successful upload a logged-in user sees the dashboard, fed
    with the uploaded data and no refresh callback, exactly when the data
    has at least one holding; when it has none the upload screen stays,
    without an error message. *)
Theorem successful_upload_shows_the_dashboard
    (d : App.PortfolioData) (err : option string) (st : App.State) :
  App.isAuthenticated st = true -> App.isLoadingPortfolio st = false ->
  let st' := App.handleUpload (App.UploadResult true (Some d) err) st in
  App.portfolioData st' = Some d
  /\ ((exists h hs, App.data_holdings d = Some (h :: hs)) ->
      App.render st' = App.DashboardView (App.dashboardData d) None)
  /\ ((App.data_holdings d = None \/ App.data_holdings d = Some []) ->
      App.render st' = App.UploadView false None).
Proof.
  intros Hauth Hload. cbv zeta. unfold App.render, App.hasPortfolio. simpl.
  rewrite Hauth, Hload. simpl. repeat split.
  - intros (h & hs & ->). reflexivity.
  - intros [-> | ->]; reflexivity.
Qed.

Lemma successful_upload_shows_the_dashboard_witness :
  App.render
    (App.handleUpload (App.UploadResult true (Some Samples.emptyAnswer) None)
       Samples.viewingPortfolio)
  = App.UploadView false None.
Proof.
  apply (successful_upload_shows_the_dashboard Samples.emptyAnswer None
           Samples.viewingPortfolio); [reflexivity | reflexivity |].
  now right.
Defined.

(** X25.  The dashboard is on the screen only for a logged-in user whose
    portfolio has at least one holding, and it is given no refresh
    callback; its Top 5 card is therefore never empty. *)
Theorem dashboard_is_shown_with_holdings
    (st : App.State) (data : Data) (refresh : Dashboard.OnRefresh) :
  App.render st = App.DashboardView data refresh ->
  App.isAuthenticated st = true
  /\ holdings data <> []
  /\ refresh = None
  /\ OverviewTab.topHoldings (holdings data) <> [].
Proof.
  unfold App.render, App.hasPortfolio.
  destruct (App.isAuthenticated st); simpl; [| discriminate].
  destruct (App.isLoadingPortfolio st); [discriminate |].
  destruct (App.isLoading st); [discriminate |].
  destruct (App.portfolioData st) as [d |] eqn:Ed; simpl;
    [| destruct (App.showUpload st); discriminate].
  destruct (App.data_holdings d) as [[| h hs] |] eqn:Eh; simpl; try discriminate.
  destruct (App.showUpload st); simpl; [discriminate |].
  intros [= <- <-]. unfold App.dashboardData. rewrite Eh. simpl.
  repeat split; try discriminate.
  intros Hempty.
  pose proof (sort_Permutation Holding OverviewTab.byCurrentValueDesc (h :: hs)) as Hperm.
  unfold OverviewTab.topHoldings, OverviewTab.allHoldings, Js.slice in Hempty.
  destruct (Js.sort OverviewTab.byCurrentValueDesc (h :: hs)) as [| x xs].
  - now apply Permutation_length in Hperm.
  - discriminate.
Qed.

Lemma dashboard_is_shown_with_holdings_witness :
  App.render Samples.viewingPortfolio
  = App.DashboardView Samples.afterBitcoin None
  /\ OverviewTab.topHoldings (holdings Samples.afterBitcoin) <> [].
Proof.
  split; [reflexivity |].
  apply (dashboard_is_shown_with_holdings Samples.viewingPortfolio
           Samples.afterBitcoin None).
  reflexivity.
Defined.


(** X27.  A reset that the user declines changes nothing.  A confirmed reset
    answered with ok empties the portfolio and its segments and clears the
    error, so a logged-in user is back on the first-upload screen; a
    confirmed reset that fails keeps the portfolio. *)
Theorem reset_empties_the_portfolio
    (response : Dashboard.FetchOutcome) (st : App.State) :
  App.handleResetPortfolio false response st = st
  /\ (let st' := App.handleResetPortfolio true (Dashboard.Responded true) st in
      App.portfolioData st' = None /\ App.segments st' = []
      /\ (App.isAuthenticated st = true -> App.isLoadingPortfolio st = false ->
          App.render st' = App.UploadView false None))
  /\ (response <> Dashboard.Responded true ->
      App.portfolioData (App.handleResetPortfolio true response st)
      = App.portfolioData st
      /\ App.isLoading (App.handleResetPortfolio true response st) = false).
Proof.
  split; [reflexivity |]. split.
  - cbv zeta. simpl. repeat split.
    intros Hauth Hload. unfold App.render, App.hasPortfolio. simpl.
    now rewrite Hauth, Hload.
  - intros Hne. destruct response as [| []]; simpl; auto. contradiction.
Qed.

Lemma reset_empties_the_portfolio_witness :
  App.render
    (App.handleResetPortfolio true (Dashboard.Responded true) Samples.viewingPortfolio)
  = App.UploadView false None
  /\ App.portfolioData
       (App.handleResetPortfolio true Dashboard.FetchRejected Samples.viewingPortfolio)
     = App.portfolioData Samples.viewingPortfolio.
Proof.
  destruct (reset_empties_the_portfolio Dashboard.FetchRejected Samples.viewingPortfolio)
    as (_ & (_ & _ & Hview) & Hkeep).
  split; [now apply Hview | now apply Hkeep].
Defined.
